(** * The birth-death-burst batch simulation driver (bdb-simple/sim_bdb.py)

    A shallow embedding of the parameter sampler, the acceptance checks, the
    output writers and the retry loop of [main], and the properties of the
    driver stated over it.

    Floating-point numbers are kept abstract (class [Scalar]): the driver
    only multiplies them, compares them, raises ten to them, takes their
    base-10 logarithm and prints them.  The random generator, the scipy
    distributions and the tree simulator of the [sdsdsim] package are
    collaborators outside the repository and are gathered in [Env]. *)

From Stdlib Require Import ZArith List String Ascii Bool Lia.
From Stdlib Require Import Sorting.Sorted.
From Stdlib Require Import DecimalString QArith Qround.
From Stdlib Require Import DecimalPos DecimalZ FinFun.
Import ListNotations.

Local Open Scope string_scope.
Local Open Scope Z_scope.

Set Implicit Arguments.

(** ** Python values *)

(** The exceptions that can leave [main]. *)
Inductive exn : Type :=
| AssertionError
| ValueError        (* math domain error of math.log10 *)
| KeyError          (* a label name that is no key of the log10 dict *)
| UnboundLocalError (* [tree] read before assignment, line 212 *).

Inductive result (A : Type) : Type :=
| Ok (a : A)
| Raise (e : exn).
Arguments Ok {A} a.
Arguments Raise {A} e.

Definition bind {A B} (r : result A) (k : A -> result B) : result B :=
  match r with
  | Ok a => k a
  | Raise e => Raise e
  end.

Notation "x <- r ;; k" := (bind r (fun x => k))
  (at level 61, r at next level, right associativity).

(** What the driver does with a float. *)
Class Scalar (V : Type) : Type := {
  fneg : V -> V;            (* -x *)
  fmul : V -> V -> V;       (* x * y *)
  fltb : V -> V -> bool;    (* x < y *)
  pow10 : V -> V;           (* 10**x *)
  fle0 : V -> bool;         (* x <= 0, the domain test of math.log10 *)
  log10 : V -> V;           (* math.log10 x on its domain *)
  float_str : V -> string;  (* str(x) *)
  f_lit : Q -> V            (* the float denoted by a decimal literal *)
}.

(** [str] of an integer, as an f-string prints it. *)
Definition int_str (z : Z) : string :=
  NilZero.string_of_int (Z.to_int z).

(** [sep.join(l)] *)
Definition join (sep : string) (l : list string) : string :=
  String.concat sep l.

(** A dict: keys in insertion order, each key once. *)
Definition dict (A : Type) : Type := list (string * A).

Fixpoint dict_get {A} (k : string) (d : dict A) : option A :=
  match d with
  | [] => None
  | (k', v) :: rest => if String.eqb k k' then Some v else dict_get k rest
  end.

(** [d[k] = v]: an existing key keeps its place, a new key goes last. *)
Fixpoint dict_set {A} (k : string) (v : A) (d : dict A) : dict A :=
  match d with
  | [] => [(k, v)]
  | (k', v') :: rest =>
      if String.eqb k k' then (k', v) :: rest else (k', v') :: dict_set k v rest
  end.

Definition keys {A} (d : dict A) : list string := map fst d.

(** [d[k]], raising KeyError on a missing key. *)
Definition dict_item {A} (k : string) (d : dict A) : result A :=
  match dict_get k d with
  | Some v => Ok v
  | None => Raise KeyError
  end.

(** [sorted] on strings: insertion of each element in turn (stable; on the
    distinct keys of a dict every sorting algorithm returns this list). *)
Fixpoint insert_sorted (x : string) (l : list string) : list string :=
  match l with
  | [] => [x]
  | y :: rest => if String.leb x y then x :: l else y :: insert_sorted x rest
  end.

Definition sorted (l : list string) : list string :=
  fold_right insert_sorted [] l.

(** Truthiness of an optional integer limit: [None] and [0] are false. *)
Definition truthy (o : option Z) : bool :=
  match o with
  | Some z => negb (z =? 0)
  | None => false
  end.

(** [o and (n > o)] for an optional limit [o]: the comparison is reached
    only for a truthy limit. *)
Definition exceeds (o : option Z) (n : Z) : bool :=
  truthy o && match o with
              | Some z => z <? n
              | None => false
              end.

(** posixpath.join of two components. *)
Definition ends_with_slash (s : string) : bool :=
  match get (Nat.pred (String.length s)) s with
  | Some c => Ascii.eqb c "/"%char
  | None => false
  end.

Definition os_path_join (a b : string) : string :=
  if prefix "/" b then b
  else if (String.eqb a "" || ends_with_slash a)%bool then a ++ b
  else a ++ "/" ++ b.

(** ** The model descriptor and the sampler *)

Section Sampler.

Context {V : Type} {SV : Scalar V}.
Variable G : Type.   (* states of the numpy generator *)

(** A distribution object: [rvs(size = None, random_state = rng)] returns a
    draw and leaves the generator in its next state. *)
Record Dist : Type := { rvs : G -> V * G }.

(** class FixedRV *)
Definition FixedRV (x : V) : Dist := {| rvs := fun g => (x, g) |}.

(** class Priors *)
Record Priors : Type := {
  state_rate : Dist;
  log_birth_rate : Dist;
  log_death_rate_prop : Dist;
  burst_rate_prop : Dist;
  burst_prob : Dist;
  model : Dist;
}.

(** The arguments sdsdsim.model.SDSDModel is built from; the attributes read
    back by [get_model_parameters] ([ctmc.q], [birth_rates], ...) are taken
    to hold the constructor's arguments. *)
Record SDSDModel : Type := {
  ctmc_q : (V * V) * (V * V);
  birth_rates : V * V;
  death_rates : V * V;
  burst_rate : V;
  burst_probs : V * V;
  burst_furcation_poisson_means : V * V;
  burst_furcation_poisson_shifts : Z * Z;
  only_bifurcate : bool;
}.

(** [min([a, b])]: the first of the smallest elements. *)
Definition min2 (a b : V) : V := if fltb b a then b else a.

Definition draw_bdb_model (priors : Priors) (rng : G) : SDSDModel * G :=
  let '(state_rate, rng) := rvs (state_rate priors) rng in
  let '(log_birth_rate_0, rng) := rvs (log_birth_rate priors) rng in
  let birth_rate_0 := pow10 log_birth_rate_0 in
  let log_birth_rate_1 := log_birth_rate_0 in
  let birth_rate_1 := birth_rate_0 in
  let '(log_death_rate_mult, rng) := rvs (log_death_rate_prop priors) rng in
  let death_rate_mult := pow10 log_death_rate_mult in
  let death_rate := fmul (min2 birth_rate_0 birth_rate_1) death_rate_mult in
  let '(burst_rate_mult, rng) := rvs (burst_rate_prop priors) rng in
  let burst_rate := fmul (min2 birth_rate_0 birth_rate_1) burst_rate_mult in
  let '(burst_prob, rng) := rvs (burst_prob priors) rng in
  ({| ctmc_q := ((fneg state_rate, state_rate), (state_rate, fneg state_rate));
      birth_rates := (birth_rate_0, birth_rate_1);
      death_rates := (death_rate, death_rate);
      burst_rate := burst_rate;
      burst_probs := (burst_prob, burst_prob);
      burst_furcation_poisson_means := (f_lit 1, f_lit 1);
      burst_furcation_poisson_shifts := (2, 2);
      only_bifurcate := true |}, rng).

(** The five values [draw_bdb_model] draws, in the order it draws them, and
    the generator it leaves: what the properties of the returned model are
    stated against. *)
Record Draws : Type := {
  d_state_rate : V;
  d_log_birth_rate_0 : V;
  d_log_death_rate_mult : V;
  d_burst_rate_mult : V;
  d_burst_prob : V;
}.

Definition draw_values (priors : Priors) (rng : G) : Draws * G :=
  let '(sr, g1) := rvs (state_rate priors) rng in
  let '(lb, g2) := rvs (log_birth_rate priors) g1 in
  let '(ld, g3) := rvs (log_death_rate_prop priors) g2 in
  let '(bm, g4) := rvs (burst_rate_prop priors) g3 in
  let '(bp, g5) := rvs (burst_prob priors) g4 in
  ({| d_state_rate := sr; d_log_birth_rate_0 := lb;
      d_log_death_rate_mult := ld; d_burst_rate_mult := bm;
      d_burst_prob := bp |}, g5).

(** ** Derived parameters *)

Definition get_model_parameters (m : SDSDModel) : dict V :=
  [ ("state_rate_01", snd (fst (ctmc_q m)));
    ("state_rate_10", fst (snd (ctmc_q m)));
    ("birth_rate_0", fst (birth_rates m));
    ("birth_rate_1", snd (birth_rates m));
    ("death_rate_0", fst (death_rates m));
    ("death_rate_1", snd (death_rates m));
    ("burst_rate", burst_rate m);
    ("burst_prob_0", fst (burst_probs m));
    ("burst_prob_1", snd (burst_probs m));
    ("expected_burst_rate_0", fmul (burst_rate m) (fst (burst_probs m)));
    ("expected_burst_rate_1", fmul (burst_rate m) (snd (burst_probs m))) ].

(** math.log10: ValueError on a value that is not strictly positive. *)
Definition math_log10 (v : V) : result V :=
  if fle0 v then Raise ValueError else Ok (log10 v).

(** The loop of [get_log10_model_parameters] over the items still to visit,
    [p] being the dict built so far. *)
Fixpoint log10_loop (items : list (string * V)) (p : dict V) : result (dict V) :=
  match items with
  | [] => Ok p
  | (k, v) :: rest =>
      l <- math_log10 v ;;
      log10_loop rest (dict_set ("log10_" ++ k) l p)
  end.

Definition get_log10_model_parameters (m : SDSDModel) : result (dict V) :=
  log10_loop (get_model_parameters m) [].

(** The entry [get_log10_model_parameters] makes of one parameter. *)
Definition log10_entry (kv : string * V) : string * V :=
  ("log10_" ++ fst kv, log10 (snd kv)).

Definition nonpositive (kv : string * V) : Prop := fle0 (snd kv) = true.

End Sampler.

Arguments Dist : clear implicits.
Arguments Priors : clear implicits.
Arguments SDSDModel : clear implicits.
Arguments Draws : clear implicits.

(** ** Trees, as the driver sees them *)

Record Leaf : Type := {
  label : string;
  leafward_state : Z;
}.

(** The root handle returned by the simulator: its three counters, its
    leaves in the order of [leaf_iter], and the text [write_newick_simple]
    writes for each value of [include_root_annotations]. *)
Record Tree : Type := {
  number_of_leaves : Z;
  number_of_extant_leaves : Z;
  number_of_extinct_leaves : Z;
  leaf_iter : list Leaf;
  write_newick_simple : bool -> string;
}.

Definition nl : string := String "010"%char "".
Definition tab : string := String "009"%char "".

(** ** Writers *)

Definition tip_row (all_zeros : bool) (leaf : Leaf) : string :=
  if all_zeros then label leaf ++ ",0" ++ nl
  else label leaf ++ "," ++ int_str (leafward_state leaf) ++ nl.

Fixpoint tip_rows (all_zeros : bool) (leaves : list Leaf) : string :=
  match leaves with
  | [] => ""
  | leaf :: rest => tip_row all_zeros leaf ++ tip_rows all_zeros rest
  end.

(** The text [stream_tip_states] writes. *)
Definition stream_tip_states (root : Tree) (all_zeros : bool) : string :=
  "taxa,data" ++ nl ++ tip_rows all_zeros (leaf_iter root).

Section Writers.

Context {V : Type} {SV : Scalar V}.

(** [str(var_dict[n]) for n in names] *)
Fixpoint variable_strs (var_dict : dict V) (names : list string)
  : result (list string) :=
  match names with
  | [] => Ok []
  | n :: rest =>
      v <- dict_item n var_dict ;;
      strs <- variable_strs var_dict rest ;;
      Ok (float_str v :: strs)
  end.

(** The text [stream_variables] writes. *)
Definition stream_variables (var_dict : dict V) : result string :=
  let names := sorted (keys var_dict) in
  let header := join "," names in
  strs <- variable_strs var_dict names ;;
  Ok (header ++ nl ++ join "," strs ++ nl).

(** [{k : log10_variables[k] for k in label_names}], [acc] being the dict
    built so far. *)
Fixpoint restrict_loop (log10_variables : dict V) (label_names : list string)
  (acc : dict V) : result (dict V) :=
  match label_names with
  | [] => Ok acc
  | k :: rest =>
      v <- dict_item k log10_variables ;;
      restrict_loop log10_variables rest (dict_set k v acc)
  end.

(** Lines 215-217: the dict handed to [write_variables]. *)
Definition reduce_variables (label_names : option (list string))
  (log10_variables : dict V) : result (dict V) :=
  match label_names with
  | None | Some [] => Ok log10_variables
  | Some names => restrict_loop log10_variables names []
  end.

End Writers.

(** ** The batch driver *)

(** The settings [main] fixes in its first lines. *)
Record Config (V : Type) : Type := {
  root_state : Z;
  include_root_annotations : bool;
  keep_extinct_trees : bool;
  max_extant_leaves : option Z;
  tree_width : Z;
  max_total_leaves : option Z;
  max_extinct_leaves : option Z;
  max_time : option V;
  max_leaves_strict : bool;
  prune_extinct_leaves : bool;
  label_names : option (list string);
}.

(** What lines 182-209 decide about one simulation. *)
Inductive Verdict : Type :=
| Reject_not_survived   (* line 183 *)
| Reject_total          (* line 191 *)
| Reject_extant         (* line 198 *)
| Reject_extinct        (* line 207 *)
| Assert_fails          (* line 209 *)
| Accept.

Definition checks {V} (cfg : Config V) (survived : bool) (root : Tree) : Verdict :=
  if negb survived && negb (keep_extinct_trees cfg) then Reject_not_survived
  else if max_leaves_strict cfg
          && exceeds (max_total_leaves cfg) (number_of_leaves root)
       then Reject_total
  else if max_leaves_strict cfg
          && exceeds (max_extant_leaves cfg) (number_of_extant_leaves root)
       then Reject_extant
  else if max_leaves_strict cfg
          && exceeds (max_extinct_leaves cfg) (number_of_extinct_leaves root)
       then Reject_extinct
  else if number_of_extant_leaves root =? tree_width cfg then Accept
  else Assert_fails.

(** [str] of an optional limit. *)
Definition limit_str (o : option Z) : string :=
  match o with
  | Some z => int_str z
  | None => "None"
  end.

(** The text written to stderr when a limit is exceeded. *)
Definition discard_message (name : string) (limit : option Z) (n : Z) : string :=
  name ++ " is " ++ limit_str limit ++ " and final shared event resulted "
  ++ "in " ++ int_str n ++ " leaves..." ++ nl
  ++ tab ++ "Discarding this simulation!" ++ nl.

Section Driver.

Context {V : Type} {SV : Scalar V}.
Variables G W : Type.

(** The collaborators: numpy's generator, scipy's uniform distribution and
    the tree simulator.  [W] is whatever the simulator may depend on besides
    its arguments. *)
Record Env : Type := {
  default_rng : Z -> G;
  rng_random : G -> V * G;
  st_uniform : V -> V -> Dist V G;
  sim_SDSD_tree :
    W -> V -> SDSDModel V -> Z -> option Z -> option Z -> option Z -> option V ->
    (bool * Tree * list V) * W;
}.

Variable env : Env.

(** [Priors()] *)
Definition default_priors : Priors V G := {|
  state_rate := FixedRV G (f_lit (1 # 100000));
  log_birth_rate := st_uniform env (f_lit (-2)) (f_lit 2);
  log_death_rate_prop := st_uniform env (f_lit (-2)) (f_lit 2);
  burst_rate_prop := st_uniform env (f_lit (2 # 10)) (f_lit (8 # 10));
  burst_prob := st_uniform env (f_lit (4 # 10)) (f_lit (6 # 10));
  model := st_uniform env (f_lit 0) (f_lit 1);
|}.

(** Lines 131-158. *)
Definition main_config : Config V := {|
  root_state := 0;
  include_root_annotations := false;
  keep_extinct_trees := false;
  max_extant_leaves := Some 500;
  tree_width := 500;
  max_total_leaves := None;
  max_extinct_leaves := None;
  max_time := None;
  max_leaves_strict := true;
  prune_extinct_leaves := false;
  label_names := Some
    [ "log10_state_rate_01"; "log10_state_rate_10";
      "log10_birth_rate_0"; "log10_birth_rate_1";
      "log10_death_rate_0"; "log10_death_rate_1";
      "log10_burst_rate";
      "log10_burst_prob_0"; "log10_burst_prob_1";
      "log10_expected_burst_rate_0"; "log10_expected_burst_rate_1" ];
|}.

(** The state of the loop: the generator, the simulator's surroundings, the
    replicate index, the files written so far (path and text, oldest first)
    and the writes to stderr so far. *)
Record State : Type := {
  rng : G;
  world : W;
  sim_idx : Z;
  files : list (string * string);
  stderr : list string;
}.

Definition sim_path_prefix (path_prefix : string) (idx : Z) : string :=
  path_prefix ++ "." ++ int_str idx.
Definition tree_path (path_prefix : string) (idx : Z) : string :=
  sim_path_prefix path_prefix idx ++ ".tre".
Definition data_path (path_prefix : string) (idx : Z) : string :=
  sim_path_prefix path_prefix idx ++ ".dat.csv".
Definition labels_path (path_prefix : string) (idx : Z) : string :=
  sim_path_prefix path_prefix idx ++ ".labels.csv".

(** How one pass through the body of the [while] loop ends. *)
Inductive Outcome : Type :=
| Rejected (s : State)            (* a [continue] *)
| Accepted (s : State)            (* the end of the body, line 226 *)
| Raised (e : exn) (s : State).

Variable cfg : Config V.
Variable priors : Priors V G.
Variable path_prefix : string.

(** Lines 168-180: the model, the seed and the simulation of one attempt,
    with the generator and the surroundings they leave. *)
Record Simulation : Type := {
  sim_model : SDSDModel V;
  sim_seed : V;
  sim_survived : bool;
  sim_root : Tree;
  sim_burst_times : list V;
  sim_rng : G;
  sim_world : W;
}.

Definition simulate (s : State) : Simulation :=
  let '(model, rng) := draw_bdb_model priors (rng s) in
  let '(seed, rng) := rng_random env rng in
  let '((survived, root, burst_times), w) :=
    sim_SDSD_tree env (world s) seed model (root_state cfg)
      (max_extant_leaves cfg) (max_extinct_leaves cfg)
      (max_total_leaves cfg) (max_time cfg) in
  {| sim_model := model; sim_seed := seed; sim_survived := survived;
     sim_root := root; sim_burst_times := burst_times;
     sim_rng := rng; sim_world := w |}.

(** The state after the simulation of an attempt, before anything is
    written. *)
Definition after_simulation (s : State) : State :=
  {| rng := sim_rng (simulate s); world := sim_world (simulate s);
     sim_idx := sim_idx s; files := files s; stderr := stderr s |}.

(** [sys.stderr.write(msg)] *)
Definition log_stderr (msg : string) (s : State) : State :=
  {| rng := rng s; world := world s; sim_idx := sim_idx s;
     files := files s; stderr := stderr s ++ [msg] |}.

(** Lines 214-226. *)
Definition write_outputs (sim : Simulation) (s : State) : Outcome :=
  match get_log10_model_parameters (sim_model sim) with
  | Raise e => Raised e s
  | Ok log10_variables =>
      match reduce_variables (label_names cfg) log10_variables with
      | Raise e => Raised e s
      | Ok reduced_log10_variables =>
          match stream_variables reduced_log10_variables with
          | Raise e => Raised e s
          | Ok labels =>
              Accepted
                {| rng := rng s; world := world s;
                   sim_idx := sim_idx s + 1;
                   files := files s ++
                     [ (labels_path path_prefix (sim_idx s), labels);
                       (data_path path_prefix (sim_idx s),
                        stream_tip_states (sim_root sim) true);
                       (tree_path path_prefix (sim_idx s),
                        write_newick_simple (sim_root sim)
                          (include_root_annotations cfg) ++ ";" ++ nl) ];
                   stderr := stderr s |}
          end
      end
  end.

(** The body of the [while] loop, lines 163-226. *)
Definition attempt (s : State) : Outcome :=
  let sim := simulate s in
  let root := sim_root sim in
  let s1 := after_simulation s in
  match checks cfg (sim_survived sim) root with
  | Reject_not_survived => Rejected s1
  | Reject_total =>
      Rejected (log_stderr (discard_message "max_total_leaves"
                  (max_total_leaves cfg) (number_of_leaves root)) s1)
  | Reject_extant =>
      Rejected (log_stderr (discard_message "max_extant_leaves"
                  (max_extant_leaves cfg) (number_of_extant_leaves root)) s1)
  | Reject_extinct =>
      Rejected (log_stderr (discard_message "max_extinct_leaves"
                  (max_extinct_leaves cfg) (number_of_extinct_leaves root)) s1)
  | Assert_fails => Raised AssertionError s1
  | Accept =>
      if prune_extinct_leaves cfg then Raised UnboundLocalError s1
      else write_outputs sim s1
  end.

(** How a run of the loop ends; the loop has no bound of its own, so the
    model runs it for at most [fuel] attempts. *)
Inductive Run : Type :=
| Finished (s : State)
| Crashed (e : exn) (s : State)
| Out_of_fuel (s : State).

Fixpoint main_loop (fuel : nat) (stop : Z) (s : State) : Run :=
  if sim_idx s <? stop then
    match fuel with
    | O => Out_of_fuel s
    | S fuel' =>
        match attempt s with
        | Rejected s' => main_loop fuel' stop s'
        | Accepted s' => main_loop fuel' stop s'
        | Raised e s' => Crashed e s'
        end
    end
  else Finished s.

(** Lines 129 and 160-162: the state the loop starts in. *)
Definition initial_state (w : W) (start_idx : Z) : State :=
  {| rng := default_rng env start_idx; world := w; sim_idx := start_idx;
     files := []; stderr := [] |}.

(** The driver from the parsed command line on, for the settings [cfg] and
    [priors]. *)
Definition driver (fuel : nat) (w : W) (start_idx batch_size : Z) : Run :=
  main_loop fuel (start_idx + batch_size) (initial_state w start_idx).

End Driver.

Arguments Env : clear implicits.

(** [main], with its own settings, priors and path prefix, from the parsed
    command line on.  The output directory, created when it is missing, is
    not part of the state. *)
Definition main {V} {SV : Scalar V} {G W} (env : Env V G W) (fuel : nat) (w : W)
  (out_path prefix : string) (start_idx batch_size : Z) : Run G W :=
  driver env (main_config (V := V)) (default_priors env)
    (os_path_join out_path prefix) fuel w start_idx batch_size.

(** ** The rest of the driver's surroundings *)

(** Where a run of the loop stands when it stops, however it stops. *)
Definition final_state {G W} (r : Run G W) : State G W :=
  match r with
  | Finished s => s
  | Crashed _ s => s
  | Out_of_fuel s => s
  end.

(** The state one pass through the loop body leaves. *)
Definition outcome_state {G W} (o : Outcome G W) : State G W :=
  match o with
  | Rejected s => s
  | Accepted s => s
  | Raised _ s => s
  end.

(** [parse_cli_args], over [sys.argv] and the conversion [int]. *)
Module Cli.

Inductive error : Type :=
| IndexError   (* sys.argv[i] past the end of the list *)
| ValueError   (* int(s) on a string that is no integer literal *).

Section Parse.

Variable int : string -> option Z.   (* the builtin [int] on a string *)

Definition argv_item (argv : list string) (i : nat) : error + string :=
  match nth_error argv i with
  | Some a => inr a
  | None => inl IndexError
  end.

Definition int_arg (a : string) : error + Z :=
  match int a with
  | Some z => inr z
  | None => inl ValueError
  end.

Definition parse_cli_args (argv : list string)
  : error + (string * string * Z * Z) :=
  match argv_item argv 1 with
  | inl e => inl e
  | inr out_path =>
  match argv_item argv 2 with
  | inl e => inl e
  | inr prefix =>
  match argv_item argv 3 with
  | inl e => inl e
  | inr a3 =>
  match int_arg a3 with
  | inl e => inl e
  | inr sim_idx =>
  match argv_item argv 4 with
  | inl e => inl e
  | inr a4 =>
  match int_arg a4 with
  | inl e => inl e
  | inr batch_size => inr (out_path, prefix, sim_idx, batch_size)
  end end end end end end.

End Parse.

End Cli.

(** A character that does not occur in a string. *)
Fixpoint absent (c : ascii) (s : string) : Prop :=
  match s with
  | EmptyString => True
  | String a rest => a <> c /\ absent c rest
  end.

(** Reading back an integer printed by [int_str]. *)
Definition int_of_str (s : string) : option Z :=
  option_map Z.of_int (NilZero.int_of_string s).

(** ** scripts/plot_burst_counts.py: the ticks of the histogram *)

Module BurstPlot.

(** The calls [plot_int_histo_on_ax] makes, in order: the histogram drawn
    by seaborn and the methods of the axes. *)
Inductive call : Type :=
| Histplot (data : list Z) (stat color : string)
| Set_xlabel (s : string)
| Set_ylabel (s : string)
| Set_title (s : string)
| Set_xticks (ticks : list Z)
| Set_xticklabels (labels : list Z).

(** [min(l)] and [max(l)]: no value on an empty list, where Python raises
    ValueError. *)
Fixpoint py_min (l : list Z) : option Z :=
  match l with
  | [] => None
  | x :: rest =>
      match py_min rest with
      | None => Some x
      | Some m => Some (if m <? x then m else x)
      end
  end.

Fixpoint py_max (l : list Z) : option Z :=
  match l with
  | [] => None
  | x :: rest =>
      match py_max rest with
      | None => Some x
      | Some m => Some (if x <? m then m else x)
      end
  end.

(** [list(range(lo, hi))] *)
Definition range (lo hi : Z) : list Z :=
  map (fun k => lo + Z.of_nat k) (seq 0 (Z.to_nat (hi - lo))).

(** [if label: ...]: a label that is [None] or empty sets nothing. *)
Definition set_label (mk : string -> call) (label : option string) : list call :=
  match label with
  | Some (String c s) => [mk (String c s)]
  | _ => []
  end.

(** The calls made, and whether the function returned ([true]) or ended in
    the ValueError of [min] or [max] on empty data ([false]). *)
Definition plot_int_histo_on_ax (int_values : list Z) (stat : string)
  (xlabel ylabel title : option string) (color : string) : list call * bool :=
  let calls :=
    ([Histplot int_values stat color]
     ++ set_label Set_xlabel xlabel
     ++ set_label Set_ylabel ylabel
     ++ set_label Set_title title)%list in
  match py_min int_values, py_max int_values with
  | Some lo, Some hi =>
      let xticks := range lo (hi + 1) in
      ((calls ++ [Set_xticks xticks; Set_xticklabels xticks])%list, true)
  | _, _ => (calls, false)
  end.

End BurstPlot.

(** ** scripts/custom_plotting.py: choosing the files of the report *)

Module PlotFiles.

(** [s.split(c)] for a separator of one character: never empty. *)
Fixpoint split (c : ascii) (s : string) : list string :=
  match s with
  | EmptyString => [EmptyString]
  | String a rest =>
      if Ascii.eqb a c then EmptyString :: split c rest
      else match split c rest with
           | tok :: toks => String a tok :: toks
           | [] => [String a EmptyString]
           end
  end.

(** [l[-2:]] *)
Definition last_two {A} (l : list A) : list A :=
  skipn (List.length l - 2) l.

(** [l[1:-1]] *)
Definition middle {A} (l : list A) : list A :=
  removelast (tl l).

(** [pattern in s] *)
Fixpoint contains (pattern s : string) : bool :=
  if prefix pattern s then true
  else match s with
       | EmptyString => false
       | String _ rest => contains pattern rest
       end.

(** ['.'.join(f.split('.')[-2:])] *)
Definition file_key (f : string) : string :=
  join "." (last_two (split "."%char f)).

(** The loop of [filter_files], [ret] being the list built so far. *)
Fixpoint filter_files_loop (files : list string) (pattern : string)
  (ret : list string) : list string :=
  match files with
  | [] => ret
  | f :: rest =>
      filter_files_loop rest pattern
        (if contains pattern (file_key f) then (ret ++ [f])%list else ret)
  end.

Definition filter_files (files : list string) (pattern : string) : list string :=
  filter_files_loop files pattern [].

(** The test of the first loop of [combine_plots] on one file name. *)
Definition is_report_page (plt_prefix f : string) : bool :=
  let tok := split "."%char f in
  let has_prefix := String.eqb plt_prefix (hd EmptyString tok) in
  let has_all_not := negb (existsb (String.eqb "summary") (middle tok)) in
  let has_pdf := String.eqb "pdf" (last tok EmptyString) in
  has_pdf && has_prefix && has_all_not.

End PlotFiles.

(** ** Vocabulary of the properties *)

Section Vocabulary.

Context {V : Type} {SV : Scalar V}.

(** A configuration with one of its leaf limits replaced. *)
Definition with_max_total_leaves (o : option Z) (cfg : Config V) : Config V :=
  {| root_state := root_state cfg;
     include_root_annotations := include_root_annotations cfg;
     keep_extinct_trees := keep_extinct_trees cfg;
     max_extant_leaves := max_extant_leaves cfg;
     tree_width := tree_width cfg;
     max_total_leaves := o;
     max_extinct_leaves := max_extinct_leaves cfg;
     max_time := max_time cfg;
     max_leaves_strict := max_leaves_strict cfg;
     prune_extinct_leaves := prune_extinct_leaves cfg;
     label_names := label_names cfg |}.

Definition with_max_extant_leaves (o : option Z) (cfg : Config V) : Config V :=
  {| root_state := root_state cfg;
     include_root_annotations := include_root_annotations cfg;
     keep_extinct_trees := keep_extinct_trees cfg;
     max_extant_leaves := o;
     tree_width := tree_width cfg;
     max_total_leaves := max_total_leaves cfg;
     max_extinct_leaves := max_extinct_leaves cfg;
     max_time := max_time cfg;
     max_leaves_strict := max_leaves_strict cfg;
     prune_extinct_leaves := prune_extinct_leaves cfg;
     label_names := label_names cfg |}.

Definition with_max_extinct_leaves (o : option Z) (cfg : Config V) : Config V :=
  {| root_state := root_state cfg;
     include_root_annotations := include_root_annotations cfg;
     keep_extinct_trees := keep_extinct_trees cfg;
     max_extant_leaves := max_extant_leaves cfg;
     tree_width := tree_width cfg;
     max_total_leaves := max_total_leaves cfg;
     max_extinct_leaves := o;
     max_time := max_time cfg;
     max_leaves_strict := max_leaves_strict cfg;
     prune_extinct_leaves := prune_extinct_leaves cfg;
     label_names := label_names cfg |}.

(** An attempt passes the survival check and the strict-mode checks. *)
Definition passes_filters (cfg : Config V) (survived : bool) (root : Tree) : bool :=
  (survived || keep_extinct_trees cfg)
  && negb (max_leaves_strict cfg
           && (exceeds (max_total_leaves cfg) (number_of_leaves root)
               || exceeds (max_extant_leaves cfg) (number_of_extant_leaves root)
               || exceeds (max_extinct_leaves cfg) (number_of_extinct_leaves root))).

(** The three paths of replicate [idx], in the order they are written. *)
Definition replicate_paths (path_prefix : string) (idx : Z) : list string :=
  [ labels_path path_prefix idx; data_path path_prefix idx;
    tree_path path_prefix idx ].

(** [start], [start + 1], ..., [start + n - 1]. *)
Definition indices (start n : Z) : list Z :=
  map (fun k => start + Z.of_nat k) (seq 0 (Z.to_nat n)).

(** The rows of a tip-data file whose data column is 0, from the labels. *)
Fixpoint zero_rows (labels : list string) : string :=
  match labels with
  | [] => ""
  | l :: rest => l ++ ",0" ++ nl ++ zero_rows rest
  end.

(** The text of the labels file of a model. *)
Definition labels_text (cfg : Config V) (m : SDSDModel V) : result string :=
  log10_variables <- get_log10_model_parameters m ;;
  reduced <- reduce_variables (label_names cfg) log10_variables ;;
  stream_variables reduced.

(** The names of all derived log10 labels. *)
Definition all_label_names (m : SDSDModel V) : list string :=
  map (fun kv => fst (log10_entry kv)) (get_model_parameters m).

(** Lexicographic order, strict. *)
Definition str_lt (a b : string) : Prop := String.ltb a b = true.

(** The label names the labels file is to hold: the configured subset when
    there is a non-empty one, all derived log10 labels otherwise. *)
Definition configured_label_names (cfg : Config V) (m : SDSDModel V)
  : list string :=
  match label_names cfg with
  | Some (n :: ns) => n :: ns
  | _ => all_label_names m
  end.

Variables G W : Type.

(** Two loop states that differ at most in the simulator's surroundings. *)
Definition same_observable (s t : State G W) : Prop :=
  rng s = rng t /\ sim_idx s = sim_idx t /\ files s = files t /\
  stderr s = stderr t.

Definition same_outcome (o o' : Outcome G W) : Prop :=
  match o, o' with
  | Rejected s, Rejected t => same_observable s t
  | Accepted s, Accepted t => same_observable s t
  | Raised e s, Raised e' t => e = e' /\ same_observable s t
  | _, _ => False
  end.


(** The simulator's result is a function of its seed and arguments. *)
Definition deterministic_oracle (env : Env V G W) : Prop :=
  forall w w' seed m rs max_extant max_extinct max_total max_time,
    fst (sim_SDSD_tree env w seed m rs max_extant max_extinct max_total max_time) =
    fst (sim_SDSD_tree env w' seed m rs max_extant max_extinct max_total max_time).

End Vocabulary.

(** ** Test doubles

    Exact rationals standing in for floats, a linear congruential generator
    standing in for numpy's, and stub simulators.  [10**x] and [log10] are
    exact on integers and on powers of ten and round down elsewhere. *)

Module TestDouble.

Fixpoint log10_up (fuel : nat) (q : Q) (k : Z) : Z :=
  match fuel with
  | O => k
  | S fuel' => if Qle_bool 10 q then log10_up fuel' (Qred (q / 10)) (k + 1) else k
  end.

Fixpoint log10_down (fuel : nat) (q : Q) (k : Z) : Z :=
  match fuel with
  | O => k
  | S fuel' => if Qle_bool 1 q then k else log10_down fuel' (Qred (q * 10)) (k - 1)
  end.

Definition floor_log10 (q : Q) : Z :=
  if Qle_bool 1 q then log10_up 64 q 0 else log10_down 64 q 0.

Definition Q_str (q : Q) : string :=
  int_str (Qnum q) ++ "/" ++ int_str (Zpos (Qden q)).

#[export] Instance Q_scalar : Scalar Q := {|
  fneg := Qopp;
  fmul := fun a b => Qred (a * b);
  fltb := fun a b => negb (Qle_bool b a);
  pow10 := fun x => Qred (Qpower 10 (Qfloor x));
  fle0 := fun x => Qle_bool x 0;
  log10 := fun x => inject_Z (floor_log10 x);
  float_str := Q_str;
  f_lit := Qred;
|}.

(** The generator: its state is an integer, a draw is the state's last
    three decimal digits read as thousandths. *)
Definition lcg_next (g : Z) : Z := (g * 1103515245 + 12345) mod 2147483648.

Definition lcg_random (g : Z) : Q * Z :=
  (Qred (Qmake (g mod 1000) 1000), lcg_next g).

Definition lcg_uniform (loc scale : Q) : Dist Q Z :=
  {| rvs := fun g => let '(u, g') := lcg_random g in
                     (Qred (loc + scale * u), g') |}.

Definition two_leaves : list Leaf :=
  [ {| label := "t0"; leafward_state := 1 |};
    {| label := "t1"; leafward_state := 0 |} ].

(** A tree handle reporting [extant] living and [extinct] dead leaves. *)
Definition stub_tree (extant extinct : Z) : Tree := {|
  number_of_leaves := extant + extinct;
  number_of_extant_leaves := extant;
  number_of_extinct_leaves := extinct;
  leaf_iter := two_leaves;
  write_newick_simple := fun _ => "(t0:1.0,t1:1.0)";
|}.

(** A simulator that always survives with [extant] living leaves, whatever
    its surroundings; it counts its calls. *)
Definition sim_fixed (extant : Z) (w : nat) (seed : Q) (m : SDSDModel Q)
  (root_state : Z) (max_extant max_extinct max_total : option Z)
  (max_time : option Q) : (bool * Tree * list Q) * nat :=
  ((true, stub_tree extant 0, []), S w).

(** A simulator whose first call dies out and whose later calls survive with
    [extant] living leaves. *)
Definition sim_extinct_once (extant : Z) (w : nat) (seed : Q) (m : SDSDModel Q)
  (root_state : Z) (max_extant max_extinct max_total : option Z)
  (max_time : option Q) : (bool * Tree * list Q) * nat :=
  ((negb (Nat.eqb w 0), stub_tree extant 0, []), S w).

(** A simulator that survives with [extant + 1] living leaves on its first
    call and with [extant] on the later ones. *)
Definition sim_overshoot_once (extant : Z) (w : nat) (seed : Q) (m : SDSDModel Q)
  (root_state : Z) (max_extant max_extinct max_total : option Z)
  (max_time : option Q) : (bool * Tree * list Q) * nat :=
  ((true, stub_tree (if Nat.eqb w 0 then extant + 1 else extant) 0, []), S w).

Definition env_of
  (sim : nat -> Q -> SDSDModel Q -> Z -> option Z -> option Z -> option Z ->
         option Q -> (bool * Tree * list Q) * nat) : Env Q Z nat :=
  {| default_rng := fun seed => seed;
     rng_random := lcg_random;
     st_uniform := lcg_uniform;
     sim_SDSD_tree := sim |}.

(** The degenerate priors of the specification's scenarios. *)
Definition fixed_priors : Priors Q Z := {|
  state_rate := FixedRV Z (1 # 100000)%Q;
  log_birth_rate := FixedRV Z (-1)%Q;
  log_death_rate_prop := FixedRV Z (-1)%Q;
  burst_rate_prop := FixedRV Z (1 # 2)%Q;
  burst_prob := FixedRV Z (1 # 2)%Q;
  model := FixedRV Z 0%Q;
|}.

(** A simulator that is a function of its seed alone: the tree dies out for
    a seed below one half and survives with [extant] living leaves
    otherwise. *)
Definition sim_by_seed (extant : Z) (w : nat) (seed : Q) (m : SDSDModel Q)
  (root_state : Z) (max_extant max_extinct max_total : option Z)
  (max_time : option Q) : (bool * Tree * list Q) * nat :=
  ((Qle_bool (1 # 2) seed, stub_tree extant 0, []), S w).

Definition cfg : Config Q := main_config.

(** Strict mode with a target width of 0 and the same limit on the living
    leaves. *)
Definition zero_width_config : Config Q := {|
  root_state := 0;
  include_root_annotations := false;
  keep_extinct_trees := false;
  max_extant_leaves := Some 0;
  tree_width := 0;
  max_total_leaves := None;
  max_extinct_leaves := None;
  max_time := None;
  max_leaves_strict := true;
  prune_extinct_leaves := false;
  label_names := None;
|}.

Definition start_state (idx : Z) : State Z nat :=
  initial_state (env_of (sim_fixed 500)) 0%nat idx.

(** The model the degenerate priors give. *)
Definition fixed_model : SDSDModel Q := fst (draw_bdb_model fixed_priors 3).

(** The settings of [main] with [prune_extinct_leaves] switched on. *)
Definition prune_config : Config Q := {|
  root_state := 0;
  include_root_annotations := false;
  keep_extinct_trees := false;
  max_extant_leaves := Some 500;
  tree_width := 500;
  max_total_leaves := None;
  max_extinct_leaves := None;
  max_time := None;
  max_leaves_strict := true;
  prune_extinct_leaves := true;
  label_names := None;
|}.

(** Settings that ask for a label the driver does not derive. *)
Definition unknown_label_config : Config Q := {|
  root_state := 0;
  include_root_annotations := false;
  keep_extinct_trees := false;
  max_extant_leaves := Some 500;
  tree_width := 500;
  max_total_leaves := None;
  max_extinct_leaves := None;
  max_time := None;
  max_leaves_strict := true;
  prune_extinct_leaves := false;
  label_names := Some ["log10_birth_rate_0"; "root_state"];
|}.

(** Settings without strict mode that keep extinct trees. *)
Definition lenient_config : Config Q := {|
  root_state := 0;
  include_root_annotations := false;
  keep_extinct_trees := true;
  max_extant_leaves := Some 500;
  tree_width := 500;
  max_total_leaves := None;
  max_extinct_leaves := None;
  max_time := None;
  max_leaves_strict := false;
  prune_extinct_leaves := false;
  label_names := None;
|}.

(** Two trees with the same leaf labels and other states. *)
Definition other_states_tree : Tree := {|
  number_of_leaves := 2;
  number_of_extant_leaves := 2;
  number_of_extinct_leaves := 0;
  leaf_iter := [ {| label := "t0"; leafward_state := 0 |};
                 {| label := "t1"; leafward_state := 1 |} ];
  write_newick_simple := fun _ => "(t0:1.0,t1:1.0)";
|}.




(** Degenerate priors whose burst probability is 0. *)
Definition zero_prob_priors : Priors Q Z := {|
  state_rate := FixedRV Z (1 # 100000)%Q;
  log_birth_rate := FixedRV Z (-1)%Q;
  log_death_rate_prop := FixedRV Z (-1)%Q;
  burst_rate_prop := FixedRV Z (1 # 2)%Q;
  burst_prob := FixedRV Z 0%Q;
  model := FixedRV Z 0%Q;
|}.

End TestDouble.

(** * Properties *)

(** ** Strings and sorting *)

Lemma append_assoc (a b c : string) : (a ++ b) ++ c = a ++ (b ++ c).
Proof.
  induction a as [| ch a IH]; simpl; [reflexivity |]. now rewrite IH.
Qed.

Lemma str_lt_of_leb (x y : string) :
  String.leb x y = true -> x <> y -> str_lt x y.
Proof.
  unfold String.leb, str_lt, String.ltb. intros Hle Hneq.
  destruct (String.compare x y) eqn:Hcmp; try reflexivity; try discriminate.
  apply String.compare_eq_iff in Hcmp. contradiction.
Qed.

Lemma str_lt_of_not_leb (x y : string) :
  String.leb x y = false -> str_lt y x.
Proof.
  unfold String.leb, str_lt, String.ltb. intros Hgt.
  rewrite String.compare_antisym.
  destruct (String.compare x y); try discriminate. reflexivity.
Qed.

Lemma insert_sorted_in (x y : string) (l : list string) :
  In y (insert_sorted x l) <-> y = x \/ In y l.
Proof.
  induction l as [| z rest IH]; simpl.
  - intuition.
  - destruct (String.leb x z); simpl; [intuition |].
    rewrite IH. intuition.
Qed.

Lemma sorted_in (x : string) (l : list string) : In x (sorted l) <-> In x l.
Proof.
  induction l as [| y rest IH]; simpl; [tauto |].
  rewrite insert_sorted_in, IH. intuition.
Qed.

Lemma insert_sorted_HdRel (x y : string) (l : list string) :
  HdRel str_lt y l -> str_lt y x -> HdRel str_lt y (insert_sorted x l).
Proof.
  intros Hhd Hyx. destruct l as [| z rest]; simpl.
  - now constructor.
  - destruct (String.leb x z); constructor; [exact Hyx |].
    now inversion Hhd.
Qed.

Lemma insert_sorted_Sorted (x : string) (l : list string) :
  Sorted str_lt l -> ~ In x l -> Sorted str_lt (insert_sorted x l).
Proof.
  induction l as [| y rest IH]; intros Hs Hnin; simpl.
  - repeat constructor.
  - inversion Hs as [| ? ? Hrest Hhd]; subst.
    destruct (String.leb x y) eqn:Hle.
    + constructor; [exact Hs |]. constructor.
      apply str_lt_of_leb; [exact Hle |]. intros ->. apply Hnin. now left.
    + constructor.
      * apply IH; [exact Hrest |]. intros Hin. apply Hnin. now right.
      * apply insert_sorted_HdRel; [exact Hhd |]. now apply str_lt_of_not_leb.
Qed.

Lemma sorted_Sorted (l : list string) : NoDup l -> Sorted str_lt (sorted l).
Proof.
  induction 1 as [| x l Hnin Hnd IH]; simpl.
  - constructor.
  - apply insert_sorted_Sorted; [exact IH |]. now rewrite sorted_in.
Qed.

(** ** Dicts *)

Section DictFacts.

Variable A : Type.
Implicit Types (d : dict A) (k : string) (v : A).

Lemma dict_get_in k d v : dict_get k d = Some v -> In (k, v) d.
Proof.
  induction d as [| [k' v'] rest IH]; simpl; [discriminate |].
  destruct (String.eqb k k') eqn:Heq.
  - apply String.eqb_eq in Heq as ->. intros [= ->]. now left.
  - intros Hget. right. now apply IH.
Qed.

Lemma dict_set_keys k v d x :
  In x (keys (dict_set k v d)) <-> x = k \/ In x (keys d).
Proof.
  unfold keys. induction d as [| [k' v'] rest IH]; simpl.
  - intuition.
  - destruct (String.eqb k k') eqn:Heq; simpl.
    + apply String.eqb_eq in Heq as ->. intuition.
    + rewrite IH. intuition.
Qed.

Lemma dict_set_NoDup k v d : NoDup (keys d) -> NoDup (keys (dict_set k v d)).
Proof.
  induction d as [| [k' v'] rest IH]; simpl; intros Hnd.
  - repeat constructor. intros [].
  - inversion Hnd as [| ? ? Hnin Hrest]; subst.
    destruct (String.eqb k k') eqn:Heq; simpl.
    + now constructor.
    + constructor; [| now apply IH].
      fold (keys (dict_set k v rest)). rewrite dict_set_keys.
      intros [-> | Hin]; [| contradiction].
      now rewrite String.eqb_refl in Heq.
Qed.

Lemma dict_set_in k v d k' v' :
  In (k', v') (dict_set k v d) -> (k' = k /\ v' = v) \/ In (k', v') d.
Proof.
  induction d as [| [k0 v0] rest IH]; simpl.
  - intros [[= <- <-] | []]. now left.
  - destruct (String.eqb k k0) eqn:Heq; simpl.
    + apply String.eqb_eq in Heq as <-.
      intros [[= <- <-] | Hin]; [now left | now right; right].
    + intros [Hhd | Hin]; [now right; left |].
      destruct (IH Hin) as [Hnew | Hold]; [now left | now right; right].
Qed.

End DictFacts.

(** ** The sampler and the derived parameters *)

Section SamplerFacts.

Context {V : Type} {SV : Scalar V}.

Lemma draw_bdb_model_rng (G : Type) (priors : Priors V G) (rng : G) :
  snd (draw_bdb_model priors rng) = snd (draw_values priors rng).
Proof.
  unfold draw_bdb_model, draw_values.
  destruct (rvs (state_rate priors) rng) as [sr g1].
  destruct (rvs (log_birth_rate priors) g1) as [lb g2].
  destruct (rvs (log_death_rate_prop priors) g2) as [ld g3].
  destruct (rvs (burst_rate_prop priors) g3) as [bm g4].
  destruct (rvs (burst_prob priors) g4) as [bp g5].
  reflexivity.
Qed.

Lemma log10_loop_raises (items : list (string * V)) :
  forall p e, log10_loop items p = Raise e ->
              e = ValueError /\ Exists nonpositive items.
Proof.
  induction items as [| [k v] rest IH]; intros p e Hrun; simpl in Hrun.
  - discriminate.
  - unfold math_log10 in Hrun.
    destruct (fle0 v) eqn:Hv; simpl in Hrun.
    + injection Hrun as <-. split; [reflexivity | now left].
    + destruct (IH _ _ Hrun) as [He Hex]. split; [exact He | now right].
Qed.

Lemma log10_loop_nonpositive (items : list (string * V)) :
  forall p, Exists nonpositive items -> log10_loop items p = Raise ValueError.
Proof.
  induction items as [| [k v] rest IH]; intros p Hex.
  - inversion Hex.
  - simpl. unfold math_log10.
    destruct (fle0 v) eqn:Hv; simpl; [reflexivity |].
    inversion Hex as [? ? Hhd | ? ? Htl]; subst.
    + unfold nonpositive in Hhd. simpl in Hhd. congruence.
    + now apply IH.
Qed.

Lemma log10_loop_positive (items : list (string * V)) :
  forall p, Forall (fun kv => fle0 (snd kv) = false) items ->
    log10_loop items p =
    Ok (fold_left (fun acc kv => dict_set (fst (log10_entry kv))
                                          (snd (log10_entry kv)) acc)
                  items p).
Proof.
  induction items as [| [k v] rest IH]; intros p Hall; simpl.
  - reflexivity.
  - inversion Hall as [| ? ? Hv Hrest]; subst. simpl in Hv.
    unfold math_log10. rewrite Hv. simpl. now apply IH.
Qed.

(** The eleven keys are distinct, so each assignment of the loop adds a new
    entry at the end. *)
Lemma log10_entries_of_parameters (m : SDSDModel V) :
  fold_left (fun acc kv => dict_set (fst (log10_entry kv))
                                    (snd (log10_entry kv)) acc)
            (get_model_parameters m) [] =
  map log10_entry (get_model_parameters m).
Proof. reflexivity. Qed.

(** C4: in the model returned by [draw_bdb_model] the birth rate of state 1
    is the birth rate of state 0 (ten to the drawn log birth rate), both
    death rates are the smaller birth rate times ten to the drawn death
    multiplier, the burst rate is the smaller birth rate times the drawn
    burst multiplier itself, and both burst probabilities are the one drawn
    value. *)
Theorem draw_bdb_model_invariants (G : Type) (priors : Priors V G) (rng : G) :
  let m := fst (draw_bdb_model priors rng) in
  let d := fst (draw_values priors rng) in
  let birth_rate_0 := fst (birth_rates m) in
  let birth_rate_1 := snd (birth_rates m) in
  birth_rate_0 = pow10 (d_log_birth_rate_0 d) /\
  birth_rate_1 = birth_rate_0 /\
  fst (death_rates m) = snd (death_rates m) /\
  snd (death_rates m) =
    fmul (min2 birth_rate_0 birth_rate_1) (pow10 (d_log_death_rate_mult d)) /\
  burst_rate m = fmul (min2 birth_rate_0 birth_rate_1) (d_burst_rate_mult d) /\
  fst (burst_probs m) = snd (burst_probs m) /\
  snd (burst_probs m) = d_burst_prob d.
Proof.
  unfold draw_bdb_model, draw_values.
  destruct (rvs (state_rate priors) rng) as [sr g1].
  destruct (rvs (log_birth_rate priors) g1) as [lb g2].
  destruct (rvs (log_death_rate_prop priors) g2) as [ld g3].
  destruct (rvs (burst_rate_prop priors) g3) as [bm g4].
  destruct (rvs (burst_prob priors) g4) as [bp g5].
  simpl. repeat split; reflexivity.
Qed.

(** C8: [get_log10_model_parameters] raises exactly when one of the eleven
    derived parameters is less than or equal to 0; when all of them are
    strictly positive it returns, for every parameter, the key prefixed with
    log10_ mapped to the base-10 logarithm of the value. *)
Theorem get_log10_model_parameters_spec (m : SDSDModel V) :
  ((exists e, get_log10_model_parameters m = Raise e) <->
   (exists k v, In (k, v) (get_model_parameters m) /\ fle0 v = true)) /\
  ((forall k v, In (k, v) (get_model_parameters m) -> fle0 v = false) ->
   get_log10_model_parameters m = Ok (map log10_entry (get_model_parameters m))).
Proof.
  unfold get_log10_model_parameters. split; [split |].
  - intros [e Hrun]. destruct (log10_loop_raises _ _ Hrun) as [_ Hex].
    apply Exists_exists in Hex as [[k v] [Hin Hv]]. now exists k, v.
  - intros (k & v & Hin & Hv). exists ValueError.
    apply log10_loop_nonpositive. apply Exists_exists.
    exists (k, v). now split.
  - intros Hpos. rewrite log10_loop_positive.
    + now rewrite log10_entries_of_parameters.
    + apply Forall_forall. intros [k v] Hin. simpl. now apply (Hpos k).
Qed.

End SamplerFacts.

(** ** The labels file *)

Section WriterFacts.

Context {V : Type} {SV : Scalar V}.

Lemma get_log10_model_parameters_ok (m : SDSDModel V) (lv : dict V) :
  get_log10_model_parameters m = Ok lv ->
  lv = map log10_entry (get_model_parameters m).
Proof.
  unfold get_log10_model_parameters. intros Hrun.
  destruct (Forall_Exists_dec (fun kv : string * V => fle0 (snd kv) = false)
              (fun kv => bool_dec (fle0 (snd kv)) false)
              (get_model_parameters m)) as [Hpos | Hneg].
  - rewrite (log10_loop_positive _ Hpos) in Hrun.
    rewrite log10_entries_of_parameters in Hrun. now injection Hrun.
  - rewrite log10_loop_nonpositive in Hrun; [discriminate |].
    apply Exists_exists in Hneg as [kv [Hin Hv]].
    apply Exists_exists. exists kv. split; [exact Hin |].
    unfold nonpositive. now destruct (fle0 (snd kv)).
Qed.

Lemma all_label_names_NoDup (m : SDSDModel V) : NoDup (all_label_names m).
Proof.
  unfold all_label_names, get_model_parameters. simpl.
  repeat (constructor; [simpl; intuition discriminate |]). constructor.
Qed.

Lemma keys_log10_entries (m : SDSDModel V) :
  keys (map log10_entry (get_model_parameters m)) = all_label_names m.
Proof. unfold keys, all_label_names. now rewrite map_map. Qed.

Lemma restrict_loop_ok (lv : dict V) (names : list string) :
  forall acc rv,
    restrict_loop lv names acc = Ok rv ->
    NoDup (keys acc) -> (forall k v, In (k, v) acc -> In (k, v) lv) ->
    NoDup (keys rv) /\
    (forall x, In x (keys rv) <-> In x names \/ In x (keys acc)) /\
    (forall k v, In (k, v) rv -> In (k, v) lv).
Proof.
  induction names as [| n rest IH]; intros acc rv Hrun Hnd Hsub; simpl in Hrun.
  - injection Hrun as <-. repeat split; try assumption; simpl; tauto.
  - unfold dict_item in Hrun.
    destruct (dict_get n lv) as [v |] eqn:Hget; simpl in Hrun; [| discriminate].
    apply dict_get_in in Hget.
    destruct (IH _ _ Hrun) as (Hnd' & Hkeys & Hsub').
    + now apply dict_set_NoDup.
    + intros k' v' Hin.
      destruct (dict_set_in _ _ _ _ _ Hin) as [[-> ->] | Hold]; auto.
    + repeat split; try assumption.
      * intros Hin. apply Hkeys in Hin. rewrite dict_set_keys in Hin.
        simpl. intuition.
      * intros Hin. apply Hkeys. rewrite dict_set_keys. simpl in Hin.
        intuition.
Qed.

Lemma reduce_variables_ok (cfg : Config V) (m : SDSDModel V) (rv : dict V) :
  reduce_variables (label_names cfg)
    (map log10_entry (get_model_parameters m)) = Ok rv ->
  NoDup (keys rv) /\
  (forall x, In x (keys rv) <-> In x (configured_label_names cfg m)) /\
  (forall k v, In (k, v) rv ->
               In (k, v) (map log10_entry (get_model_parameters m))).
Proof.
  unfold reduce_variables, configured_label_names.
  assert (Hall :
            NoDup (keys (map log10_entry (get_model_parameters m))) /\
            (forall x, In x (keys (map log10_entry (get_model_parameters m)))
                       <-> In x (all_label_names m)) /\
            (forall k v, In (k, v) (map log10_entry (get_model_parameters m)) ->
                         In (k, v) (map log10_entry (get_model_parameters m)))).
  { rewrite keys_log10_entries.
    repeat split; auto using all_label_names_NoDup. }
  destruct (label_names cfg) as [[| n ns] |];
    try (intros Heq; injection Heq as <-; exact Hall).
  intros Hrun. apply restrict_loop_ok in Hrun as (Hnd & Hkeys & Hsub).
  - repeat split; try assumption.
    + intros Hin. apply Hkeys in Hin. destruct Hin as [Hin | []]. exact Hin.
    + intros Hin. apply Hkeys. now left.
  - constructor.
  - intros k v [].
Qed.

Lemma variable_strs_ok (d : dict V) (names : list string) :
  forall strs, variable_strs d names = Ok strs ->
    exists vals, strs = map float_str vals /\
                 Forall2 (fun n v => In (n, v) d) names vals.
Proof.
  induction names as [| n rest IH]; intros strs Hrun; simpl in Hrun.
  - injection Hrun as <-. now exists [].
  - unfold dict_item in Hrun.
    destruct (dict_get n d) as [v |] eqn:Hget; simpl in Hrun; [| discriminate].
    destruct (variable_strs d rest) as [strs' | e]; simpl in Hrun;
      [| discriminate].
    injection Hrun as <-. destruct (IH _ eq_refl) as (vals & -> & Hall).
    exists (v :: vals). split; [reflexivity |].
    constructor; [now apply dict_get_in | exact Hall].
Qed.

(** The text of the labels file of a model, when there is one: the sorted
    names, then their values. *)
Lemma labels_text_ok (cfg : Config V) (m : SDSDModel V) (text : string) :
  labels_text cfg m = Ok text ->
  exists names vals,
    text = join "," names ++ nl ++ join "," (map float_str vals) ++ nl /\
    Sorted str_lt names /\
    (forall x, In x names <-> In x (configured_label_names cfg m)) /\
    Forall2 (fun n v => exists k x, In (k, x) (get_model_parameters m) /\
                                    n = "log10_" ++ k /\ v = log10 x)
            names vals.
Proof.
  unfold labels_text. intros Hrun.
  destruct (get_log10_model_parameters m) as [lv | e] eqn:Hlog;
    simpl in Hrun; [| discriminate].
  apply get_log10_model_parameters_ok in Hlog as ->.
  destruct (reduce_variables (label_names cfg) _) as [rv | e] eqn:Hred;
    simpl in Hrun; [| discriminate].
  apply reduce_variables_ok in Hred as (Hnd & Hkeys & Hsub).
  unfold stream_variables in Hrun.
  destruct (variable_strs rv (sorted (keys rv))) as [strs | e] eqn:Hstrs;
    simpl in Hrun; [| discriminate].
  injection Hrun as <-.
  apply variable_strs_ok in Hstrs as (vals & -> & Hvals).
  exists (sorted (keys rv)), vals. split; [reflexivity |].
  split; [now apply sorted_Sorted |].
  split; [intros x; now rewrite sorted_in |].
  eapply Forall2_impl; [| exact Hvals].
  intros n v Hin. apply Hsub in Hin. apply in_map_iff in Hin as [[k x] [Heq Hin]].
  injection Heq as <- <-. now exists k, x.
Qed.

End WriterFacts.

(** ** The acceptance checks *)

Section CheckFacts.

Context {V : Type}.
Variable cfg : Config V.

Lemma exceeds_zero (n : Z) : exceeds (Some 0) n = exceeds None n.
Proof. reflexivity. Qed.

Lemma checks_accept_inv (survived : bool) (root : Tree) :
  checks cfg survived root = Accept ->
  number_of_extant_leaves root = tree_width cfg.
Proof.
  unfold checks.
  repeat match goal with
         | |- context [if ?b then _ else _] => destruct b eqn:?
         end; try discriminate.
  intros _. now apply Z.eqb_eq.
Qed.

Lemma checks_passes_filters (survived : bool) (root : Tree) :
  passes_filters cfg survived root = true ->
  checks cfg survived root =
  if number_of_extant_leaves root =? tree_width cfg then Accept else Assert_fails.
Proof.
  unfold passes_filters, checks.
  destruct survived, (keep_extinct_trees cfg), (max_leaves_strict cfg); simpl;
    try discriminate; try reflexivity;
    destruct (exceeds (max_total_leaves cfg) (number_of_leaves root)),
             (exceeds (max_extant_leaves cfg) (number_of_extant_leaves root)),
             (exceeds (max_extinct_leaves cfg) (number_of_extinct_leaves root));
    simpl; try discriminate; reflexivity.
Qed.

(** C9: each strict-mode check tests its limit for truthiness before it
    compares, so a limit of 0 decides every attempt as an absent limit does,
    and no attempt is rejected by the check of a limit that is 0. *)
Theorem zero_limit_is_no_limit (survived : bool) (root : Tree) :
  (checks (with_max_total_leaves (Some 0) cfg) survived root =
   checks (with_max_total_leaves None cfg) survived root /\
   checks (with_max_total_leaves (Some 0) cfg) survived root <> Reject_total) /\
  (checks (with_max_extant_leaves (Some 0) cfg) survived root =
   checks (with_max_extant_leaves None cfg) survived root /\
   checks (with_max_extant_leaves (Some 0) cfg) survived root <> Reject_extant) /\
  (checks (with_max_extinct_leaves (Some 0) cfg) survived root =
   checks (with_max_extinct_leaves None cfg) survived root /\
   checks (with_max_extinct_leaves (Some 0) cfg) survived root <> Reject_extinct).
Proof.
  unfold checks; simpl. rewrite !andb_false_r.
  repeat split; try reflexivity;
    repeat match goal with
           | |- context [if ?b then _ else _] => destruct b
           end; discriminate.
Qed.

End CheckFacts.

(** ** The loop *)

Section DriverFacts.

Context {V : Type} {SV : Scalar V}.
Variables G W : Type.
Variable env : Env V G W.
Variable cfg : Config V.
Variable priors : Priors V G.
Variable path_prefix : string.

Local Abbreviation attempt_ := (attempt env cfg priors path_prefix).
Local Abbreviation simulate_ := (simulate env cfg priors).
Local Abbreviation main_loop_ := (main_loop env cfg priors path_prefix).
Local Abbreviation driver_ := (driver env cfg priors path_prefix).
Local Abbreviation after_simulation_ := (after_simulation env cfg priors).

Lemma write_outputs_accepted (sim : Simulation G W) (s s' : State G W) :
  write_outputs cfg path_prefix sim s = Accepted s' ->
  exists labels,
    labels_text cfg (sim_model sim) = Ok labels /\
    s' = {| rng := rng s; world := world s; sim_idx := sim_idx s + 1;
            files := files s ++
              [ (labels_path path_prefix (sim_idx s), labels);
                (data_path path_prefix (sim_idx s),
                 stream_tip_states (sim_root sim) true);
                (tree_path path_prefix (sim_idx s),
                 write_newick_simple (sim_root sim)
                   (include_root_annotations cfg) ++ ";" ++ nl) ];
            stderr := stderr s |}.
Proof.
  unfold write_outputs, labels_text.
  destruct (get_log10_model_parameters (sim_model sim)) as [lv | e];
    simpl; [| discriminate].
  destruct (reduce_variables (label_names cfg) lv) as [rv | e];
    simpl; [| discriminate].
  destruct (stream_variables rv) as [labels | e]; [| discriminate].
  intros [= <-]. now exists labels.
Qed.

Lemma write_outputs_not_rejected (sim : Simulation G W) (s s' : State G W) :
  write_outputs cfg path_prefix sim s <> Rejected s'.
Proof.
  unfold write_outputs.
  destruct (get_log10_model_parameters (sim_model sim)) as [lv | e];
    [| discriminate].
  destruct (reduce_variables (label_names cfg) lv) as [rv | e]; [| discriminate].
  destruct (stream_variables rv); discriminate.
Qed.

Lemma attempt_accepted (s s' : State G W) :
  attempt_ s = Accepted s' ->
  checks cfg (sim_survived (simulate_ s)) (sim_root (simulate_ s)) = Accept /\
  exists labels,
    labels_text cfg (sim_model (simulate_ s)) = Ok labels /\
    s' = {| rng := sim_rng (simulate_ s); world := sim_world (simulate_ s);
            sim_idx := sim_idx s + 1;
            files := files s ++
              [ (labels_path path_prefix (sim_idx s), labels);
                (data_path path_prefix (sim_idx s),
                 stream_tip_states (sim_root (simulate_ s)) true);
                (tree_path path_prefix (sim_idx s),
                 write_newick_simple (sim_root (simulate_ s))
                   (include_root_annotations cfg) ++ ";" ++ nl) ];
            stderr := stderr s |}.
Proof.
  unfold attempt, after_simulation. fold (simulate_ s).
  destruct (checks cfg (sim_survived (simulate_ s)) (sim_root (simulate_ s)));
    try discriminate.
  destruct (prune_extinct_leaves cfg); [discriminate |].
  intros Hw. split; [reflexivity |].
  apply write_outputs_accepted in Hw as (labels & Htxt & ->).
  now exists labels.
Qed.

Lemma attempt_rejected (s s' : State G W) :
  attempt_ s = Rejected s' ->
  rng s' = sim_rng (simulate_ s) /\ world s' = sim_world (simulate_ s) /\
  sim_idx s' = sim_idx s /\ files s' = files s.
Proof.
  unfold attempt, after_simulation. fold (simulate_ s).
  destruct (checks cfg (sim_survived (simulate_ s)) (sim_root (simulate_ s)));
    try discriminate; try (intros [= <-]; simpl; tauto).
  destruct (prune_extinct_leaves cfg); [discriminate |].
  intros Hw. now apply write_outputs_not_rejected in Hw.
Qed.

Lemma main_loop_step (fuel : nat) (stop : Z) (s : State G W) :
  sim_idx s < stop ->
  main_loop_ (S fuel) stop s =
  match attempt_ s with
  | Rejected s' => main_loop_ fuel stop s'
  | Accepted s' => main_loop_ fuel stop s'
  | Raised e s' => Crashed e s'
  end.
Proof.
  intros Hlt. simpl. apply Z.ltb_lt in Hlt. now rewrite Hlt.
Qed.

(** C1: an accepted attempt, the one that writes the three files of its
    index and advances it, has a tree with exactly [tree_width] living
    leaves; an attempt that passes the survival and strict-mode checks with
    another number of living leaves raises AssertionError, which ends the
    loop with nothing written for it. *)
Theorem accepted_replicate_has_tree_width (s : State G W) :
  (forall s', attempt_ s = Accepted s' ->
     number_of_extant_leaves (sim_root (simulate_ s)) = tree_width cfg /\
     sim_idx s' = sim_idx s + 1 /\
     map fst (files s') =
       (map fst (files s) ++ replicate_paths path_prefix (sim_idx s))%list) /\
  (passes_filters cfg (sim_survived (simulate_ s)) (sim_root (simulate_ s)) = true ->
   number_of_extant_leaves (sim_root (simulate_ s)) <> tree_width cfg ->
   attempt_ s = Raised AssertionError (after_simulation_ s) /\
   forall fuel stop, sim_idx s < stop ->
     main_loop_ (S fuel) stop s = Crashed AssertionError (after_simulation_ s)).
Proof.
  split.
  - intros s' Hacc. apply attempt_accepted in Hacc as (Hchk & labels & _ & ->).
    split; [now apply checks_accept_inv in Hchk |].
    split; [reflexivity |]. simpl. now rewrite map_app.
  - intros Hpass Hneq.
    assert (Hatt : attempt_ s = Raised AssertionError (after_simulation_ s)).
    { unfold attempt, after_simulation. fold (simulate_ s).
      rewrite (checks_passes_filters _ _ _ Hpass).
      apply Z.eqb_neq in Hneq. now rewrite Hneq. }
    split; [exact Hatt |].
    intros fuel stop Hlt. rewrite main_loop_step by exact Hlt. now rewrite Hatt.
Qed.

Lemma indices_nil (start n : Z) : n <= 0 -> indices start n = [].
Proof.
  intros Hn. unfold indices.
  replace (Z.to_nat n) with 0%nat by lia. reflexivity.
Qed.

Lemma indices_cons (start n : Z) :
  0 < n -> indices start n = start :: indices (start + 1) (n - 1).
Proof.
  intros Hn. unfold indices.
  replace (Z.to_nat n) with (S (Z.to_nat (n - 1))) by lia.
  simpl. f_equal; [lia |].
  rewrite <- seq_shift, map_map. apply map_ext. intros k. lia.
Qed.

Lemma main_loop_finished (stop : Z) (fuel : nat) :
  forall s s', main_loop_ fuel stop s = Finished s' ->
    map fst (files s') =
      (map fst (files s) ++
       flat_map (replicate_paths path_prefix)
                (indices (sim_idx s) (stop - sim_idx s)))%list /\
    (sim_idx s <= stop -> sim_idx s' = stop).
Proof.
  induction fuel as [| fuel IH]; intros s s' Hrun; simpl in Hrun.
  - destruct (sim_idx s <? stop) eqn:Hlt; [discriminate |].
    injection Hrun as <-. apply Z.ltb_ge in Hlt.
    rewrite indices_nil by lia. simpl. rewrite app_nil_r.
    split; [reflexivity | lia].
  - destruct (sim_idx s <? stop) eqn:Hlt.
    + apply Z.ltb_lt in Hlt.
      destruct (attempt_ s) as [s1 | s1 | e s1] eqn:Hatt; [| | discriminate].
      * apply attempt_rejected in Hatt as (_ & _ & Hidx & Hfiles).
        destruct (IH _ _ Hrun) as [Hpaths Hend].
        rewrite Hidx, Hfiles in Hpaths. split; [exact Hpaths | lia].
      * apply attempt_accepted in Hatt as (_ & labels & _ & ->).
        destruct (IH _ _ Hrun) as [Hpaths Hend]. simpl in Hpaths, Hend.
        split; [| lia].
        rewrite Hpaths, map_app, <- app_assoc.
        rewrite (@indices_cons (sim_idx s) (stop - sim_idx s)) by lia.
        replace (stop - sim_idx s - 1) with (stop - (sim_idx s + 1)) by lia.
        reflexivity.
    + injection Hrun as <-. apply Z.ltb_ge in Hlt.
      rewrite indices_nil by lia. simpl. rewrite app_nil_r.
      split; [reflexivity | lia].
Qed.

(** C2: a rejected attempt writes no file and leaves the index where it
    was, and the loop goes on with the same index; when a run finishes, the
    files it has written are the triples of the indices [start_idx] up to
    [start_idx + batch_size - 1], one triple for each and in that order. *)
Theorem rejected_attempt_writes_nothing :
  (forall s s', attempt_ s = Rejected s' ->
     files s' = files s /\ sim_idx s' = sim_idx s /\
     forall fuel stop, sim_idx s < stop ->
       main_loop_ (S fuel) stop s = main_loop_ fuel stop s') /\
  (forall fuel w start_idx batch_size s',
     driver_ fuel w start_idx batch_size = Finished s' ->
     map fst (files s') =
       flat_map (replicate_paths path_prefix) (indices start_idx batch_size) /\
     (0 <= batch_size -> sim_idx s' = start_idx + batch_size)).
Proof.
  split.
  - intros s s' Hrej.
    destruct (attempt_rejected _ Hrej) as (_ & _ & Hidx & Hfiles).
    repeat split; try assumption.
    intros fuel stop Hlt. rewrite main_loop_step by exact Hlt. now rewrite Hrej.
  - intros fuel w start_idx batch_size s' Hrun. unfold driver in Hrun.
    apply main_loop_finished in Hrun as [Hpaths Hend]. simpl in Hpaths, Hend.
    replace (start_idx + batch_size - start_idx) with batch_size in Hpaths by lia.
    split; [exact Hpaths | intros; apply Hend; lia].
Qed.

Lemma attempt_rejected_stderr (s s' : State G W) :
  attempt_ s = Rejected s' ->
  let root := sim_root (simulate_ s) in
  match checks cfg (sim_survived (simulate_ s)) root with
  | Reject_not_survived => stderr s' = stderr s
  | Reject_total =>
      stderr s' = (stderr s ++
        [discard_message "max_total_leaves" (max_total_leaves cfg)
           (number_of_leaves root)])%list
  | Reject_extant =>
      stderr s' = (stderr s ++
        [discard_message "max_extant_leaves" (max_extant_leaves cfg)
           (number_of_extant_leaves root)])%list
  | Reject_extinct =>
      stderr s' = (stderr s ++
        [discard_message "max_extinct_leaves" (max_extinct_leaves cfg)
           (number_of_extinct_leaves root)])%list
  | Assert_fails | Accept => False
  end.
Proof.
  unfold attempt. fold (simulate_ s). cbv zeta.
  destruct (checks cfg (sim_survived (simulate_ s)) (sim_root (simulate_ s)));
    try discriminate; try (intros [= <-]; reflexivity).
  destruct (prune_extinct_leaves cfg); [discriminate |].
  intros Hw. now apply write_outputs_not_rejected in Hw.
Qed.

(** C3, as the code has it: an attempt rejected for a leaf-limit overage
    writes one diagnostic to stderr, which starts with the name of the limit
    that was exceeded, so the three overage reasons have different texts; an
    attempt rejected for failed survival is retried with nothing written to
    stderr. *)
Theorem overage_rejections_are_logged :
  (forall s s', attempt_ s = Rejected s' ->
     let root := sim_root (simulate_ s) in
     match checks cfg (sim_survived (simulate_ s)) root with
     | Reject_not_survived => stderr s' = stderr s
     | Reject_total =>
         stderr s' = (stderr s ++
           [discard_message "max_total_leaves" (max_total_leaves cfg)
              (number_of_leaves root)])%list
     | Reject_extant =>
         stderr s' = (stderr s ++
           [discard_message "max_extant_leaves" (max_extant_leaves cfg)
              (number_of_extant_leaves root)])%list
     | Reject_extinct =>
         stderr s' = (stderr s ++
           [discard_message "max_extinct_leaves" (max_extinct_leaves cfg)
              (number_of_extinct_leaves root)])%list
     | Assert_fails | Accept => False
     end) /\
  (forall l1 n1 l2 n2,
     discard_message "max_total_leaves" l1 n1 <>
       discard_message "max_extant_leaves" l2 n2 /\
     discard_message "max_total_leaves" l1 n1 <>
       discard_message "max_extinct_leaves" l2 n2 /\
     discard_message "max_extant_leaves" l1 n1 <>
       discard_message "max_extinct_leaves" l2 n2).
Proof.
  split.
  - exact attempt_rejected_stderr.
  - intros l1 n1 l2 n2. unfold discard_message. simpl.
    repeat split; discriminate.
Qed.

(** *** Determinism *)

Lemma simulate_same (s t : State G W) :
  deterministic_oracle env -> rng s = rng t ->
  sim_model (simulate_ s) = sim_model (simulate_ t) /\
  sim_seed (simulate_ s) = sim_seed (simulate_ t) /\
  sim_survived (simulate_ s) = sim_survived (simulate_ t) /\
  sim_root (simulate_ s) = sim_root (simulate_ t) /\
  sim_burst_times (simulate_ s) = sim_burst_times (simulate_ t) /\
  sim_rng (simulate_ s) = sim_rng (simulate_ t).
Proof.
  intros Hdet Hrng. unfold simulate. rewrite <- Hrng.
  destruct (draw_bdb_model priors (rng s)) as [m g1].
  destruct (rng_random env g1) as [seed g2].
  specialize (Hdet (world s) (world t) seed m (root_state cfg)
                   (max_extant_leaves cfg) (max_extinct_leaves cfg)
                   (max_total_leaves cfg) (max_time cfg)).
  destruct (sim_SDSD_tree env (world s) seed m (root_state cfg)
              (max_extant_leaves cfg) (max_extinct_leaves cfg)
              (max_total_leaves cfg) (max_time cfg)) as [[[sv1 r1] bt1] w1].
  destruct (sim_SDSD_tree env (world t) seed m (root_state cfg)
              (max_extant_leaves cfg) (max_extinct_leaves cfg)
              (max_total_leaves cfg) (max_time cfg)) as [[[sv2 r2] bt2] w2].
  simpl in Hdet. injection Hdet as -> -> ->. simpl. repeat split.
Qed.

Ltac same_states :=
  simpl; unfold same_observable; simpl; repeat split; reflexivity.

Lemma attempt_same (s t : State G W) :
  deterministic_oracle env -> same_observable s t ->
  same_outcome (attempt_ s) (attempt_ t).
Proof.
  intros Hdet (Hrng & Hidx & Hfiles & Herr).
  destruct (simulate_same s t Hdet Hrng)
    as (Hm & _ & Hsv & Hroot & _ & Hg).
  unfold attempt, write_outputs, after_simulation, log_stderr.
  fold (simulate_ s). fold (simulate_ t).
  rewrite Hm, Hsv, Hroot, Hg, Hidx, Hfiles, Herr.
  destruct (checks cfg (sim_survived (simulate_ t)) (sim_root (simulate_ t)));
    try same_states.
  destruct (prune_extinct_leaves cfg); [same_states |].
  destruct (get_log10_model_parameters (sim_model (simulate_ t))) as [lv | e];
    [| same_states].
  destruct (reduce_variables (label_names cfg) lv) as [rv | e]; [| same_states].
  destruct (stream_variables rv); same_states.
Qed.

Lemma main_loop_same (stop : Z) (Hdet : deterministic_oracle env) :
  forall fuel1 fuel2 s t s' t',
    same_observable s t ->
    main_loop_ fuel1 stop s = Finished s' ->
    main_loop_ fuel2 stop t = Finished t' ->
    same_observable s' t'.
Proof.
  induction fuel1 as [| fuel1 IH]; intros fuel2 s t s' t' Hst Hs Ht.
  - simpl in Hs. destruct (sim_idx s <? stop) eqn:Hlt; [discriminate |].
    injection Hs as <-.
    assert (Hlt' : (sim_idx t <? stop) = false).
    { destruct Hst as (_ & <- & _). exact Hlt. }
    destruct fuel2; simpl in Ht; rewrite Hlt' in Ht; now injection Ht as <-.
  - simpl in Hs. destruct (sim_idx s <? stop) eqn:Hlt.
    + assert (Hlt' : (sim_idx t <? stop) = true).
      { destruct Hst as (_ & <- & _). exact Hlt. }
      destruct fuel2 as [| fuel2]; simpl in Ht; rewrite Hlt' in Ht;
        [discriminate |].
      pose proof (attempt_same Hdet Hst) as Hout.
      destruct (attempt_ s) as [s1 | s1 | e1 s1], (attempt_ t) as [t1 | t1 | e2 t1];
        simpl in Hout; try contradiction; try discriminate;
        exact (IH _ _ _ _ _ Hout Hs Ht).
    + injection Hs as <-.
      assert (Hlt' : (sim_idx t <? stop) = false).
      { destruct Hst as (_ & <- & _). exact Hlt. }
      destruct fuel2; simpl in Ht; rewrite Hlt' in Ht; now injection Ht as <-.
Qed.

(** C5: with a simulator whose result is a function of its seed and
    arguments, two finished runs for the same start index, batch size,
    settings and priors have written the same files with the same texts, in
    whatever surroundings and with whatever attempt budgets they ran. *)
Theorem driver_is_deterministic (fuel1 fuel2 : nat) (w1 w2 : W)
  (start_idx batch_size : Z) (s1 s2 : State G W) :
  deterministic_oracle env ->
  driver_ fuel1 w1 start_idx batch_size = Finished s1 ->
  driver_ fuel2 w2 start_idx batch_size = Finished s2 ->
  files s1 = files s2 /\ stderr s1 = stderr s2 /\ rng s1 = rng s2.
Proof.
  intros Hdet H1 H2. unfold driver in H1, H2.
  assert (Hinit : same_observable (initial_state env w1 start_idx)
                                  (initial_state env w2 start_idx)).
  { unfold same_observable, initial_state. simpl. tauto. }
  destruct (@main_loop_same _ Hdet _ _ _ _ _ _ Hinit H1 H2)
    as (Hg & _ & Hf & He).
  split; [exact Hf | split; [exact He | exact Hg]].
Qed.

(** *** Strict mode *)

(** C6, as the code has it: in strict mode with [max_extant_leaves] equal
    to a non-zero [tree_width], an attempt with [tree_width + 1] living
    leaves is rejected, nothing is written, the index stays and the loop
    goes on with it; the assertion is not reached. *)
Theorem strict_extant_overage_is_retried (s : State G W) :
  max_leaves_strict cfg = true ->
  max_extant_leaves cfg = Some (tree_width cfg) ->
  tree_width cfg <> 0 ->
  number_of_extant_leaves (sim_root (simulate_ s)) = tree_width cfg + 1 ->
  checks cfg (sim_survived (simulate_ s)) (sim_root (simulate_ s)) <> Assert_fails /\
  exists s', attempt_ s = Rejected s' /\
    sim_idx s' = sim_idx s /\ files s' = files s /\
    forall fuel stop, sim_idx s < stop ->
      main_loop_ (S fuel) stop s = main_loop_ fuel stop s'.
Proof.
  intros Hstrict Hmax Hwidth Hextant.
  assert (Hover : exceeds (max_extant_leaves cfg)
                    (number_of_extant_leaves (sim_root (simulate_ s))) = true).
  { rewrite Hmax, Hextant. simpl. apply andb_true_iff. split.
    - apply negb_true_iff. now apply Z.eqb_neq.
    - apply Z.ltb_lt. lia. }
  assert (Hchk : exists v, checks cfg (sim_survived (simulate_ s))
                             (sim_root (simulate_ s)) = v /\
                           (v = Reject_not_survived \/ v = Reject_total \/
                            v = Reject_extant)).
  { unfold checks. rewrite Hstrict, Hover. simpl.
    destruct (negb (sim_survived (simulate_ s)) && negb (keep_extinct_trees cfg));
      [eauto |].
    destruct (exceeds (max_total_leaves cfg)
                (number_of_leaves (sim_root (simulate_ s)))); eauto 6. }
  destruct Hchk as (v & Hv & Hcases).
  split; [rewrite Hv; intuition congruence |].
  assert (Hrej : exists s', attempt_ s = Rejected s').
  { unfold attempt. fold (simulate_ s). rewrite Hv.
    destruct Hcases as [-> | [-> | ->]]; eauto. }
  destruct Hrej as [s' Hrej]. exists s'.
  destruct (attempt_rejected _ Hrej) as (_ & _ & Hidx & Hfiles).
  repeat split; try assumption.
  intros fuel stop Hlt. rewrite main_loop_step by exact Hlt. now rewrite Hrej.
Qed.

(** *** The tip-data file *)

Lemma tip_rows_all_zeros (leaves : list Leaf) :
  tip_rows true leaves = zero_rows (map label leaves).
Proof.
  induction leaves as [| leaf rest IH]; simpl; [reflexivity |].
  unfold tip_row. now rewrite IH, append_assoc.
Qed.


(** *** The labels file *)

(** C7: the labels file of an accepted replicate is two lines, the label
    names joined by commas and the values of those names joined by commas in
    the same order; the names are in strictly increasing lexicographic
    order, they are the configured names when a non-empty subset is
    configured and all derived log10 labels otherwise, and each value is the
    base-10 logarithm of the parameter its name stands for. *)
Theorem labels_file_is_sorted_header_and_row (s s' : State G W) :
  attempt_ s = Accepted s' ->
  let m := sim_model (simulate_ s) in
  exists names vals data tree,
    files s' = (files s ++
      [ (labels_path path_prefix (sim_idx s),
         (join "," names ++ nl ++ join "," (map float_str vals) ++ nl)%string);
        (data_path path_prefix (sim_idx s), data);
        (tree_path path_prefix (sim_idx s), tree) ])%list /\
    Sorted str_lt names /\
    (forall x, In x names <-> In x (configured_label_names cfg m)) /\
    Forall2 (fun n v => exists k x, In (k, x) (get_model_parameters m) /\
                                    n = "log10_" ++ k /\ v = log10 x)
            names vals.
Proof.
  intros Hacc. cbv zeta.
  apply attempt_accepted in Hacc as (_ & labels & Htxt & ->).
  apply labels_text_ok in Htxt as (names & vals & -> & Hsorted & Hnames & Hvals).
  exists names, vals. eexists. eexists.
  split; [reflexivity |].
  split; [exact Hsorted | split; [exact Hnames | exact Hvals]].
Qed.

End DriverFacts.

(** ** More on strings: cancellation and printed integers *)

Lemma length_append (a b : string) :
  String.length (a ++ b) = (String.length a + String.length b)%nat.
Proof.
  induction a as [| ch a IH]; simpl; [reflexivity |]. now rewrite IH.
Qed.

Lemma append_inv_head (a b c : string) : a ++ b = a ++ c -> b = c.
Proof.
  induction a as [| ch a IH]; simpl; [trivial |]. intros [= Heq]. now apply IH.
Qed.

(** Two texts that end in tails of the same length agree on the tails and
    on what is before them. *)
Lemma append_same_length_tail (x : string) :
  forall y u v,
    x ++ u = y ++ v -> String.length u = String.length v -> x = y /\ u = v.
Proof.
  induction x as [| ch x IH]; intros [| ch' y] u v Heq Hlen; simpl in Heq.
  - now split.
  - exfalso. apply (f_equal String.length) in Heq. simpl in Heq.
    rewrite length_append in Heq. lia.
  - exfalso. apply (f_equal String.length) in Heq. simpl in Heq.
    rewrite length_append in Heq. lia.
  - injection Heq as <- Heq. destruct (IH _ _ _ Heq Hlen) as [-> ->].
    now split.
Qed.

Lemma append_inv_tail (a b c : string) : a ++ c = b ++ c -> a = b.
Proof.
  intros Heq. now destruct (append_same_length_tail _ _ _ _ Heq eq_refl).
Qed.

(** Two lines, each closed by the first occurrence of [c], are equal when
    the texts they start are equal, and so are the rests. *)
Lemma first_line_inj (c : ascii) (a : string) :
  forall b x y,
    absent c a -> absent c b ->
    a ++ String c x = b ++ String c y -> a = b /\ x = y.
Proof.
  induction a as [| ch a IH]; intros [| ch' b] x y Ha Hb Heq; simpl in *.
  - injection Heq as <-. now split.
  - injection Heq as Hc _. destruct Hb as [Hb _]. now elim Hb.
  - injection Heq as Hc _. destruct Ha as [Ha _]. now elim Ha.
  - injection Heq as <- Heq. destruct Ha as [_ Ha], Hb as [_ Hb].
    destruct (IH _ _ _ Ha Hb Heq) as [-> ->]. now split.
Qed.

Lemma to_int_not_nil (z : Z) :
  Z.to_int z <> Decimal.Pos Decimal.Nil /\ Z.to_int z <> Decimal.Neg Decimal.Nil.
Proof.
  destruct z as [| p | p]; simpl; split; try discriminate;
    intros [= Hnil]; now apply (DecimalPos.Unsigned.to_uint_nonnil p).
Qed.

(** [int_str] can be read back. *)
Lemma int_of_str_int_str (z : Z) : int_of_str (int_str z) = Some z.
Proof.
  unfold int_of_str, int_str. destruct (to_int_not_nil z) as [Hpos Hneg].
  rewrite NilZero.isi by assumption. simpl. now rewrite DecimalZ.of_to.
Qed.

Lemma int_str_inj (i j : Z) : int_str i = int_str j -> i = j.
Proof.
  intros Heq. apply (f_equal int_of_str) in Heq.
  rewrite !int_of_str_int_str in Heq. now injection Heq.
Qed.

Lemma uint_str_no_newline (d : Decimal.uint) :
  absent "010"%char (NilEmpty.string_of_uint d).
Proof.
  induction d; simpl; try exact I; (split; [discriminate | assumption]).
Qed.

(** A printed integer is digits after an optional sign: no line break. *)
Lemma int_str_no_newline (z : Z) : absent "010"%char (int_str z).
Proof.
  unfold int_str.
  assert (Hu : forall d, absent "010"%char (NilZero.string_of_uint d)).
  { intros d. destruct d; try apply (uint_str_no_newline (_ _)).
    simpl. split; [discriminate | exact I]. }
  destruct (Z.to_int z) as [d | d]; simpl; [apply Hu |].
  split; [discriminate | apply Hu].
Qed.

(** ** The paths of the replicates *)

Section PathFacts.

Variable path_prefix : string.

Lemma labels_path_inj (i j : Z) :
  labels_path path_prefix i = labels_path path_prefix j -> i = j.
Proof.
  unfold labels_path, sim_path_prefix. intros Heq.
  apply append_inv_tail in Heq.
  apply append_inv_head in Heq. simpl in Heq. injection Heq as Heq.
  now apply int_str_inj.
Qed.

Lemma data_path_inj (i j : Z) :
  data_path path_prefix i = data_path path_prefix j -> i = j.
Proof.
  unfold data_path, sim_path_prefix. intros Heq.
  apply append_inv_tail in Heq.
  apply append_inv_head in Heq. simpl in Heq. injection Heq as Heq.
  now apply int_str_inj.
Qed.

Lemma tree_path_inj (i j : Z) :
  tree_path path_prefix i = tree_path path_prefix j -> i = j.
Proof.
  unfold tree_path, sim_path_prefix. intros Heq.
  apply append_inv_tail in Heq.
  apply append_inv_head in Heq. simpl in Heq. injection Heq as Heq.
  now apply int_str_inj.
Qed.

Lemma labels_path_not_data (i j : Z) :
  labels_path path_prefix i <> data_path path_prefix j.
Proof.
  unfold labels_path, data_path. intros Heq.
  change ".labels.csv" with (".la" ++ "bels.csv") in Heq.
  rewrite <- append_assoc in Heq.
  now destruct (append_same_length_tail _ _ _ _ Heq eq_refl) as [_ [=]].
Qed.

Lemma labels_path_not_tree (i j : Z) :
  labels_path path_prefix i <> tree_path path_prefix j.
Proof.
  unfold labels_path, tree_path. intros Heq.
  change ".labels.csv" with (".labels" ++ ".csv") in Heq.
  rewrite <- append_assoc in Heq.
  now destruct (append_same_length_tail _ _ _ _ Heq eq_refl) as [_ [=]].
Qed.

Lemma data_path_not_tree (i j : Z) :
  data_path path_prefix i <> tree_path path_prefix j.
Proof.
  unfold data_path, tree_path. intros Heq.
  change ".dat.csv" with (".dat" ++ ".csv") in Heq.
  rewrite <- append_assoc in Heq.
  now destruct (append_same_length_tail _ _ _ _ Heq eq_refl) as [_ [=]].
Qed.

Lemma replicate_paths_disjoint (i j : Z) (p : string) :
  In p (replicate_paths path_prefix i) ->
  In p (replicate_paths path_prefix j) -> i = j.
Proof.
  unfold replicate_paths. simpl.
  intros [<- | [<- | [<- | []]]] [Hj | [Hj | [Hj | []]]];
    try (now apply labels_path_inj);
    try (now apply data_path_inj);
    try (now apply tree_path_inj);
    exfalso;
    first [ now apply (labels_path_not_data _ _ Hj)
          | now apply (labels_path_not_data _ _ (eq_sym Hj))
          | now apply (labels_path_not_tree _ _ Hj)
          | now apply (labels_path_not_tree _ _ (eq_sym Hj))
          | now apply (data_path_not_tree _ _ Hj)
          | now apply (data_path_not_tree _ _ (eq_sym Hj)) ].
Qed.

Lemma replicate_paths_NoDup (i : Z) : NoDup (replicate_paths path_prefix i).
Proof.
  unfold replicate_paths.
  repeat constructor; simpl.
  - intros [H | [H | []]].
    + now apply (labels_path_not_data _ _ (eq_sym H)).
    + now apply (labels_path_not_tree _ _ (eq_sym H)).
  - intros [H | []]. now apply (data_path_not_tree _ _ (eq_sym H)).
  - intros [].
Qed.

Lemma flat_map_paths_NoDup (l : list Z) :
  NoDup l -> NoDup (flat_map (replicate_paths path_prefix) l).
Proof.
  induction 1 as [| i l Hnin Hnd IH]; [constructor |].
  cbn [flat_map]. apply NoDup_app; [apply replicate_paths_NoDup | exact IH |].
  intros p Hi Hl. apply in_flat_map in Hl as (j & Hj & Hp).
  apply Hnin. now rewrite (replicate_paths_disjoint Hi Hp).
Qed.

Lemma indices_NoDup (start n : Z) : NoDup (indices start n).
Proof.
  unfold indices. apply Injective_map_NoDup; [| apply seq_NoDup].
  intros a b Heq. lia.
Qed.

Lemma indices_in (start n i : Z) :
  In i (indices start n) <-> start <= i < start + n.
Proof.
  unfold indices. rewrite in_map_iff. split.
  - intros (k & <- & Hk). apply in_seq in Hk. lia.
  - intros Hi. exists (Z.to_nat (i - start)). split; [lia |].
    apply in_seq. lia.
Qed.

End PathFacts.

(** ** When the labels file cannot be written *)

Section LabelErrors.

Context {V : Type} {SV : Scalar V}.

Lemma dict_get_key (A : Type) (k : string) (d : dict A) :
  In k (keys d) -> exists v, dict_get k d = Some v.
Proof.
  unfold keys. induction d as [| [k' v'] rest IH]; simpl; [intros [] |].
  destruct (String.eqb k k') eqn:Heq; [now exists v' |].
  intros [<- | Hin]; [| now apply IH].
  now rewrite String.eqb_refl in Heq.
Qed.

Lemma dict_get_none (A : Type) (k : string) (d : dict A) :
  dict_get k d = None -> ~ In k (keys d).
Proof.
  intros Hnone Hin. apply dict_get_key in Hin as [v Hv]. congruence.
Qed.

Lemma restrict_loop_raises (lv : dict V) (names : list string) :
  forall acc e, restrict_loop lv names acc = Raise e ->
    e = KeyError /\ exists n, In n names /\ ~ In n (keys lv).
Proof.
  induction names as [| n rest IH]; intros acc e Hrun; simpl in Hrun.
  - discriminate.
  - unfold dict_item in Hrun.
    destruct (dict_get n lv) as [v |] eqn:Hget; simpl in Hrun.
    + destruct (IH _ _ Hrun) as (He & m & Hin & Hm).
      split; [exact He |]. exists m. split; [now right | exact Hm].
    + injection Hrun as <-. split; [reflexivity |].
      exists n. split; [now left | now apply dict_get_none].
Qed.


Lemma variable_strs_succeeds (d : dict V) (names : list string) :
  (forall n, In n names -> In n (keys d)) ->
  exists strs, variable_strs d names = Ok strs.
Proof.
  induction names as [| n rest IH]; intros Hsub; simpl.
  - now exists [].
  - destruct (dict_get_key n d (Hsub n (or_introl eq_refl))) as [v Hv].
    unfold dict_item. rewrite Hv. simpl.
    destruct IH as [strs Hstrs]; [intros m Hm; apply Hsub; now right |].
    rewrite Hstrs. simpl. now eexists.
Qed.

(** [stream_variables] looks up the keys of the dict it is given: it never
    raises. *)
Lemma stream_variables_succeeds (d : dict V) :
  exists text, stream_variables d = Ok text.
Proof.
  unfold stream_variables.
  destruct (variable_strs_succeeds d (sorted (keys d))) as [strs Hstrs].
  - intros n Hn. now apply sorted_in.
  - rewrite Hstrs. simpl. now eexists.
Qed.

Lemma reduce_variables_raises (cfg : Config V) (m : SDSDModel V) (e : exn) :
  reduce_variables (label_names cfg)
    (map log10_entry (get_model_parameters m)) = Raise e ->
  e = KeyError /\
  exists n, In n (configured_label_names cfg m) /\ ~ In n (all_label_names m).
Proof.
  unfold reduce_variables, configured_label_names.
  destruct (label_names cfg) as [[| n ns] |]; try discriminate.
  intros Hrun. apply restrict_loop_raises in Hrun as (He & k & Hin & Hk).
  rewrite keys_log10_entries in Hk. split; [exact He |]. now exists k.
Qed.


(** Why the labels text of a model cannot be made. *)
Lemma labels_text_raises (cfg : Config V) (m : SDSDModel V) (e : exn) :
  labels_text cfg m = Raise e ->
  (e = ValueError /\ Exists nonpositive (get_model_parameters m)) \/
  (e = KeyError /\
   Forall (fun kv => fle0 (snd kv) = false) (get_model_parameters m) /\
   exists n, In n (configured_label_names cfg m) /\ ~ In n (all_label_names m)).
Proof.
  unfold labels_text. intros Hrun.
  destruct (get_log10_model_parameters m) as [lv | e'] eqn:Hlog; simpl in Hrun.
  - right.
    assert (Hpos : Forall (fun kv : string * V => fle0 (snd kv) = false)
                     (get_model_parameters m)).
    { destruct (Forall_Exists_dec (fun kv : string * V => fle0 (snd kv) = false)
                  (fun kv => bool_dec (fle0 (snd kv)) false)
                  (get_model_parameters m)) as [Hpos | Hneg]; [exact Hpos |].
      unfold get_log10_model_parameters in Hlog.
      rewrite log10_loop_nonpositive in Hlog; [discriminate |].
      apply Exists_exists in Hneg as [kv [Hin Hv]].
      apply Exists_exists. exists kv. split; [exact Hin |].
      unfold nonpositive. now destruct (fle0 (snd kv)). }
    apply get_log10_model_parameters_ok in Hlog as ->.
    destruct (reduce_variables (label_names cfg) _) as [rv | e''] eqn:Hred;
      simpl in Hrun.
    + destruct (stream_variables_succeeds rv) as [text Htext]. congruence.
    + injection Hrun as <-.
      apply reduce_variables_raises in Hred as [He Hn]. now repeat split.
  - injection Hrun as <-. left.
    unfold get_log10_model_parameters in Hlog.
    now apply log10_loop_raises in Hlog.
Qed.


(** A labels text exists only for positive parameters and known names. *)
Lemma labels_text_ok_inv (cfg : Config V) (m : SDSDModel V) (text : string) :
  labels_text cfg m = Ok text ->
  Forall (fun kv => fle0 (snd kv) = false) (get_model_parameters m) /\
  (forall n, In n (configured_label_names cfg m) -> In n (all_label_names m)).
Proof.
  intros Hrun. split.
  - destruct (Forall_Exists_dec (fun kv : string * V => fle0 (snd kv) = false)
                (fun kv => bool_dec (fle0 (snd kv)) false)
                (get_model_parameters m)) as [Hpos | Hneg]; [exact Hpos |].
    unfold labels_text, get_log10_model_parameters in Hrun.
    rewrite log10_loop_nonpositive in Hrun; [discriminate |].
    apply Exists_exists in Hneg as [kv [Hin Hv]].
    apply Exists_exists. exists kv. split; [exact Hin |].
    unfold nonpositive. now destruct (fle0 (snd kv)).
  - unfold labels_text in Hrun.
    destruct (get_log10_model_parameters m) as [lv | e] eqn:Hlog;
      simpl in Hrun; [| discriminate].
    apply get_log10_model_parameters_ok in Hlog as ->.
    destruct (reduce_variables (label_names cfg) _) as [rv | e] eqn:Hred;
      simpl in Hrun; [| discriminate].
    apply reduce_variables_ok in Hred as (_ & Hkeys & Hsub).
    intros n Hn. apply Hkeys in Hn.
    destruct (dict_get_key n rv Hn) as [v Hv].
    apply dict_get_in, Hsub in Hv.
    rewrite <- keys_log10_entries. unfold keys.
    now apply (in_map fst) in Hv.
Qed.

End LabelErrors.

(** ** What one attempt does, case by case *)

Section AttemptFacts.

Context {V : Type} {SV : Scalar V}.
Variables G W : Type.
Variable env : Env V G W.
Variable cfg : Config V.
Variable priors : Priors V G.
Variable path_prefix : string.

Local Abbreviation attempt_ := (attempt env cfg priors path_prefix).
Local Abbreviation simulate_ := (simulate env cfg priors).
Local Abbreviation main_loop_ := (main_loop env cfg priors path_prefix).
Local Abbreviation driver_ := (driver env cfg priors path_prefix).
Local Abbreviation after_simulation_ := (after_simulation env cfg priors).

Lemma checks_fails_filters (survived : bool) (root : Tree) :
  passes_filters cfg survived root = false ->
  checks cfg survived root = Reject_not_survived \/
  checks cfg survived root = Reject_total \/
  checks cfg survived root = Reject_extant \/
  checks cfg survived root = Reject_extinct.
Proof.
  unfold passes_filters, checks.
  destruct survived, (keep_extinct_trees cfg), (max_leaves_strict cfg); simpl;
    try discriminate; auto;
    destruct (exceeds (max_total_leaves cfg) (number_of_leaves root)),
             (exceeds (max_extant_leaves cfg) (number_of_extant_leaves root)),
             (exceeds (max_extinct_leaves cfg) (number_of_extinct_leaves root));
    simpl; try discriminate; auto.
Qed.

Lemma write_outputs_raised (sim : Simulation G W) (s s' : State G W) (e : exn) :
  write_outputs cfg path_prefix sim s = Raised e s' ->
  s' = s /\ labels_text cfg (sim_model sim) = Raise e.
Proof.
  unfold write_outputs, labels_text.
  destruct (get_log10_model_parameters (sim_model sim)) as [lv | e1];
    simpl; [| now intros [= <- <-]].
  destruct (reduce_variables (label_names cfg) lv) as [rv | e2];
    simpl; [| now intros [= <- <-]].
  destruct (stream_variables rv) as [labels | e3]; [discriminate |].
  now intros [= <- <-].
Qed.

Lemma write_outputs_of_text (sim : Simulation G W) (s : State G W) (text : string) :
  labels_text cfg (sim_model sim) = Ok text ->
  exists s', write_outputs cfg path_prefix sim s = Accepted s'.
Proof.
  unfold write_outputs, labels_text.
  destruct (get_log10_model_parameters (sim_model sim)) as [lv | e1];
    simpl; [| discriminate].
  destruct (reduce_variables (label_names cfg) lv) as [rv | e2];
    simpl; [| discriminate].
  destruct (stream_variables rv) as [labels | e3]; [| discriminate].
  intros _. now eexists.
Qed.

Lemma attempt_raised (s s' : State G W) (e : exn) :
  attempt_ s = Raised e s' ->
  s' = after_simulation_ s /\
  ((e = AssertionError /\
    checks cfg (sim_survived (simulate_ s)) (sim_root (simulate_ s)) = Assert_fails)
   \/
   (checks cfg (sim_survived (simulate_ s)) (sim_root (simulate_ s)) = Accept /\
    ((e = UnboundLocalError /\ prune_extinct_leaves cfg = true) \/
     (prune_extinct_leaves cfg = false /\
      labels_text cfg (sim_model (simulate_ s)) = Raise e)))).
Proof.
  unfold attempt. fold (simulate_ s). fold (after_simulation_ s).
  destruct (checks cfg (sim_survived (simulate_ s)) (sim_root (simulate_ s)));
    try discriminate.
  - intros [= <- <-]. split; [reflexivity |]. now left.
  - destruct (prune_extinct_leaves cfg).
    + intros [= <- <-]. split; [reflexivity |]. right. split; [reflexivity |].
      now left.
    + intros Hw. apply write_outputs_raised in Hw as [-> Htxt].
      split; [reflexivity |]. right. split; [reflexivity |]. now right.
Qed.

(** X1: an attempt is retried exactly when it fails the survival check or,
    in strict mode, exceeds a leaf limit that is set and not 0; in
    particular without strict mode and with [keep_extinct_trees] no attempt
    is ever retried. *)
Theorem attempt_rejected_iff (s : State G W) :
  ((exists s', attempt_ s = Rejected s') <->
   passes_filters cfg (sim_survived (simulate_ s)) (sim_root (simulate_ s)) = false)
  /\
  (max_leaves_strict cfg = false -> keep_extinct_trees cfg = true ->
   forall s', attempt_ s <> Rejected s').
Proof.
  assert (Hiff : (exists s', attempt_ s = Rejected s') <->
                 passes_filters cfg (sim_survived (simulate_ s))
                   (sim_root (simulate_ s)) = false).
  { split.
    - intros [s' Hrej].
      destruct (passes_filters cfg (sim_survived (simulate_ s))
                  (sim_root (simulate_ s))) eqn:Hpass; [| reflexivity].
      pose proof Hrej as Hcase. apply attempt_rejected_stderr in Hcase.
      cbv zeta in Hcase. rewrite (checks_passes_filters _ _ _ Hpass) in Hcase.
      now destruct (number_of_extant_leaves (sim_root (simulate_ s))
                    =? tree_width cfg).
    - intros Hfail. apply checks_fails_filters in Hfail.
      unfold attempt. fold (simulate_ s).
      destruct Hfail as [-> | [-> | [-> | ->]]]; now eexists. }
  split; [exact Hiff |].
  intros Hstrict Hkeep s' Hrej.
  assert (Hfail : passes_filters cfg (sim_survived (simulate_ s))
                    (sim_root (simulate_ s)) = false)
    by (apply Hiff; now exists s').
  unfold passes_filters in Hfail. rewrite Hstrict, Hkeep in Hfail.
  simpl in Hfail. rewrite orb_true_r in Hfail. discriminate.
Qed.




Lemma write_outputs_of_raise (sim : Simulation G W) (s : State G W) (e : exn) :
  labels_text cfg (sim_model sim) = Raise e ->
  write_outputs cfg path_prefix sim s = Raised e s.
Proof.
  unfold write_outputs, labels_text.
  destruct (get_log10_model_parameters (sim_model sim)) as [lv | e1];
    cbn [bind]; [| now intros [= <-]].
  destruct (reduce_variables (label_names cfg) lv) as [rv | e2];
    cbn [bind]; [| now intros [= <-]].
  destruct (stream_variables rv) as [labels | e3]; [discriminate |].
  now intros [= <-].
Qed.

Lemma restrict_loop_unknown (lv : dict V) (names : list string) :
  (exists n, In n names /\ ~ In n (keys lv)) ->
  forall acc, restrict_loop lv names acc = Raise KeyError.
Proof.
  induction names as [| n0 rest IH]; intros (n & Hin & Hn) acc.
  - destruct Hin.
  - cbn [restrict_loop]. unfold dict_item.
    destruct (dict_get n0 lv) as [v |] eqn:Hget; cbn [bind]; [| reflexivity].
    apply IH. exists n. split; [| exact Hn].
    destruct Hin as [<- | Hin]; [| exact Hin].
    exfalso. apply Hn. apply dict_get_in in Hget.
    unfold keys. now apply (in_map fst) in Hget.
Qed.

Lemma labels_text_value_error (m : SDSDModel V) :
  (exists k v, In (k, v) (get_model_parameters m) /\ fle0 v = true) ->
  labels_text cfg m = Raise ValueError.
Proof.
  intros (k & v & Hin & Hv). unfold labels_text, get_log10_model_parameters.
  rewrite log10_loop_nonpositive; [reflexivity |].
  apply Exists_exists. exists (k, v). now split.
Qed.

Lemma labels_text_key_error (m : SDSDModel V) :
  (forall k v, In (k, v) (get_model_parameters m) -> fle0 v = false) ->
  (exists n, In n (configured_label_names cfg m) /\ ~ In n (all_label_names m)) ->
  labels_text cfg m = Raise KeyError.
Proof.
  intros Hpos (n & Hn & Hmissing).
  unfold labels_text, get_log10_model_parameters.
  rewrite log10_loop_positive, log10_entries_of_parameters
    by (apply Forall_forall; intros [k v] Hin; simpl; exact (Hpos _ _ Hin)).
  cbn [bind]. unfold reduce_variables.
  unfold configured_label_names in Hn.
  destruct (label_names cfg) as [[| n0 ns] |]; try contradiction.
  rewrite restrict_loop_unknown; [reflexivity |].
  exists n. split; [exact Hn |]. now rewrite keys_log10_entries.
Qed.

(** X3: the four failures before the output step, in the order the code
    meets them.  An attempt that passes the checks with another number of
    living leaves than [tree_width] ends in AssertionError; with the right
    number and [prune_extinct_leaves] on, in UnboundLocalError; otherwise
    with a derived parameter that is not strictly positive, in ValueError
    (also when a label name is unknown as well); otherwise with a configured
    label name that is no derived label, in KeyError.  In each case nothing
    has been written, neither a file nor a diagnostic, and the index is
    kept. *)
Theorem attempt_failure_table (s : State G W) :
  let sim := simulate_ s in
  passes_filters cfg (sim_survived sim) (sim_root sim) = true ->
  (number_of_extant_leaves (sim_root sim) <> tree_width cfg ->
   attempt_ s = Raised AssertionError (after_simulation_ s)) /\
  (number_of_extant_leaves (sim_root sim) = tree_width cfg ->
   (prune_extinct_leaves cfg = true ->
    attempt_ s = Raised UnboundLocalError (after_simulation_ s)) /\
   (prune_extinct_leaves cfg = false ->
    (exists k v, In (k, v) (get_model_parameters (sim_model sim)) /\
                 fle0 v = true) ->
    attempt_ s = Raised ValueError (after_simulation_ s)) /\
   (prune_extinct_leaves cfg = false ->
    (forall k v, In (k, v) (get_model_parameters (sim_model sim)) ->
                 fle0 v = false) ->
    (exists n, In n (configured_label_names cfg (sim_model sim)) /\
               ~ In n (all_label_names (sim_model sim))) ->
    attempt_ s = Raised KeyError (after_simulation_ s))) /\
  files (after_simulation_ s) = files s /\
  stderr (after_simulation_ s) = stderr s /\
  sim_idx (after_simulation_ s) = sim_idx s.
Proof.
  cbv zeta. intros Hpass.
  pose proof (checks_passes_filters _ _ _ Hpass) as Hchk.
  split; [| split; [| now repeat split]].
  - intros Hneq. apply Z.eqb_neq in Hneq. rewrite Hneq in Hchk.
    unfold attempt. fold (simulate_ s). fold (after_simulation_ s).
    now rewrite Hchk.
  - intros Hw. apply Z.eqb_eq in Hw. rewrite Hw in Hchk.
    split; [| split].
    + intros Hprune. unfold attempt. fold (simulate_ s).
      fold (after_simulation_ s). now rewrite Hchk, Hprune.
    + intros Hprune Hneg. unfold attempt. fold (simulate_ s).
      fold (after_simulation_ s). rewrite Hchk, Hprune.
      apply write_outputs_of_raise. now apply labels_text_value_error.
    + intros Hprune Hpos Hunknown. unfold attempt. fold (simulate_ s).
      fold (after_simulation_ s). rewrite Hchk, Hprune.
      apply write_outputs_of_raise. now apply labels_text_key_error.
Qed.

End AttemptFacts.

(** ** What a run leaves behind *)

Section RunFacts.

Context {V : Type} {SV : Scalar V}.
Variables G W : Type.
Variable env : Env V G W.
Variable cfg : Config V.
Variable priors : Priors V G.
Variable path_prefix : string.

Local Abbreviation attempt_ := (attempt env cfg priors path_prefix).
Local Abbreviation simulate_ := (simulate env cfg priors).
Local Abbreviation main_loop_ := (main_loop env cfg priors path_prefix).
Local Abbreviation driver_ := (driver env cfg priors path_prefix).
Local Abbreviation after_simulation_ := (after_simulation env cfg priors).

Lemma attempt_rejected_grows (s s' : State G W) :
  attempt_ s = Rejected s' -> exists more, stderr s' = (stderr s ++ more)%list.
Proof.
  intros Hrej. apply attempt_rejected_stderr in Hrej. cbv zeta in Hrej.
  destruct (checks cfg (sim_survived (simulate_ s)) (sim_root (simulate_ s)));
    try contradiction; try (eexists; exact Hrej).
  exists []. now rewrite app_nil_r.
Qed.

Lemma main_loop_invariant (stop : Z) (fuel : nat) :
  forall s,
    let s' := final_state (main_loop_ fuel stop s) in
    map fst (files s') =
      (map fst (files s) ++
       flat_map (replicate_paths path_prefix)
                (indices (sim_idx s) (sim_idx s' - sim_idx s)))%list /\
    sim_idx s <= sim_idx s' <= Z.max (sim_idx s) stop /\
    (exists more, stderr s' = (stderr s ++ more)%list).
Proof.
  assert (Hstay : forall s : State G W,
            map fst (files s) =
              (map fst (files s) ++
               flat_map (replicate_paths path_prefix)
                        (indices (sim_idx s) (sim_idx s - sim_idx s)))%list /\
            sim_idx s <= sim_idx s <= Z.max (sim_idx s) stop /\
            (exists more, stderr s = (stderr s ++ more)%list)).
  { intros s. rewrite indices_nil by lia. simpl. rewrite app_nil_r.
    split; [reflexivity |]. split; [lia |]. exists []. now rewrite app_nil_r. }
  induction fuel as [| fuel IH]; intros s; cbv zeta; simpl.
  - destruct (sim_idx s <? stop); apply Hstay.
  - destruct (sim_idx s <? stop) eqn:Hlt; [| apply Hstay].
    apply Z.ltb_lt in Hlt.
    destruct (attempt_ s) as [s1 | s1 | e s1] eqn:Hatt.
    + destruct (attempt_rejected_grows _ Hatt) as [more1 Herr1].
      apply attempt_rejected in Hatt as (_ & _ & Hidx & Hfiles).
      specialize (IH s1). cbv zeta in IH.
      destruct IH as (Hpaths & Hbound & more & Herr).
      rewrite Hidx, Hfiles in Hpaths. rewrite Hidx in Hbound.
      split; [exact Hpaths |]. split; [exact Hbound |].
      exists (more1 ++ more)%list. now rewrite Herr, Herr1, app_assoc.
    + apply attempt_accepted in Hatt as (_ & labels & _ & Hs1).
      specialize (IH s1). cbv zeta in IH.
      set (s_end := final_state (main_loop_ fuel stop s1)) in *.
      destruct IH as (Hpaths & Hbound & Herr).
      assert (Hidx1 : sim_idx s1 = sim_idx s + 1) by now rewrite Hs1.
      assert (Hfiles1 : map fst (files s1) =
                        (map fst (files s)
                         ++ replicate_paths path_prefix (sim_idx s))%list)
        by (rewrite Hs1; simpl; now rewrite map_app).
      assert (Herr1 : stderr s1 = stderr s) by now rewrite Hs1.
      rewrite Hidx1 in Hpaths, Hbound. rewrite Hfiles1 in Hpaths.
      rewrite Herr1 in Herr.
      split; [| split; [lia | exact Herr]].
      rewrite Hpaths, <- app_assoc. f_equal.
      rewrite (@indices_cons (sim_idx s) (sim_idx s_end - sim_idx s)) by lia.
      replace (sim_idx s_end - sim_idx s - 1)
        with (sim_idx s_end - (sim_idx s + 1)) by lia.
      reflexivity.
    + apply attempt_raised in Hatt as [-> _]. simpl. apply Hstay.
Qed.

(** X4: for a start index that is not negative, each time the loop
    condition is evaluated (after any number of completed attempts) and when
    the run has finished, the files written so far are the complete triples
    of the indices from [start_idx] up to the current index, in order and
    nothing else, and the index has not passed
    [start_idx + batch_size]. *)
Theorem loop_head_has_complete_triples (fuel : nat) (w : W)
  (start_idx batch_size : Z) (s' : State G W) :
  0 <= start_idx ->
  driver_ fuel w start_idx batch_size = Finished s' \/
  driver_ fuel w start_idx batch_size = Out_of_fuel s' ->
  map fst (files s') =
    flat_map (replicate_paths path_prefix)
             (indices start_idx (sim_idx s' - start_idx)) /\
  start_idx <= sim_idx s' <= Z.max start_idx (start_idx + batch_size).
Proof.
  intros _ Hrun. unfold driver in Hrun.
  pose proof (main_loop_invariant (start_idx + batch_size) fuel
                (initial_state env w start_idx)) as Hinv.
  cbv zeta in Hinv.
  destruct Hrun as [Hrun | Hrun]; rewrite Hrun in Hinv;
    destruct Hinv as (Hpaths & Hbound & _);
    (split; [exact Hpaths | exact Hbound]).
Qed.

(** X5: no path is written twice in a run: the paths of different indices
    differ, and so do the three paths of one index, so no output file of a
    batch overwrites another. *)
Theorem run_writes_each_path_once (fuel : nat) (w : W)
  (start_idx batch_size : Z) :
  NoDup (map fst (files (final_state (driver_ fuel w start_idx batch_size)))).
Proof.
  unfold driver.
  pose proof (main_loop_invariant (start_idx + batch_size) fuel
                (initial_state env w start_idx)) as Hinv.
  cbv zeta in Hinv. destruct Hinv as (Hpaths & _ & _).
  rewrite Hpaths. simpl. apply flat_map_paths_NoDup, indices_NoDup.
Qed.

Lemma never_accepted_run (stop : Z) :
  (forall s s', attempt_ s <> Accepted s') ->
  forall fuel s,
    files (final_state (main_loop_ fuel stop s)) = files s /\
    sim_idx (final_state (main_loop_ fuel stop s)) = sim_idx s.
Proof.
  intros Hnever. induction fuel as [| fuel IH]; intros s; simpl.
  - now destruct (sim_idx s <? stop).
  - destruct (sim_idx s <? stop); [| now split].
    destruct (attempt_ s) as [s1 | s1 | e s1] eqn:Hatt.
    + apply attempt_rejected in Hatt as (_ & _ & Hidx & Hfiles).
      destruct (IH s1) as [Hf Hi]. now rewrite Hf, Hi.
    + now elim (Hnever s s1).
    + apply attempt_raised in Hatt as [-> _]. now split.
Qed.

(** X6: with [prune_extinct_leaves] switched on, line 212 reads the local
    [tree] before any assignment: an attempt that passes every check raises
    UnboundLocalError instead of writing, no attempt is ever accepted, and a
    run writes no file at all. *)
Theorem prune_extinct_leaves_never_writes :
  prune_extinct_leaves cfg = true ->
  (forall s,
     checks cfg (sim_survived (simulate_ s)) (sim_root (simulate_ s)) = Accept ->
     attempt_ s = Raised UnboundLocalError (after_simulation_ s)) /\
  (forall s s', attempt_ s <> Accepted s') /\
  (forall fuel w start_idx batch_size,
     files (final_state (driver_ fuel w start_idx batch_size)) = []).
Proof.
  intros Hprune.
  assert (Hnever : forall s s', attempt_ s <> Accepted s').
  { intros s s' Hacc. pose proof Hacc as Hinv.
    apply attempt_accepted in Hinv as [Hchk _].
    revert Hacc. unfold attempt. fold (simulate_ s).
    rewrite Hchk, Hprune. discriminate. }
  split; [| split; [exact Hnever |]].
  - intros s Hchk. unfold attempt. fold (simulate_ s). now rewrite Hchk, Hprune.
  - intros fuel w start_idx batch_size. unfold driver.
    now destruct (never_accepted_run (start_idx + batch_size) Hnever fuel
                    (initial_state env w start_idx)) as [-> _].
Qed.

End RunFacts.

(** ** Settings, priors and the shared generator *)

Section SettingFacts.

Context {V : Type} {SV : Scalar V}.
Variables G W : Type.
Variable env : Env V G W.
Variable path_prefix : string.

Lemma all_label_names_const (m m' : SDSDModel V) :
  all_label_names m = all_label_names m'.
Proof. reflexivity. Qed.

(** X7: a configured label name that is not one of the derived log10
    labels makes the dict comprehension of line 217 raise KeyError in every
    attempt that gets that far: no attempt is accepted and a run writes no
    file. *)
Theorem unknown_label_never_writes (cfg : Config V) (priors : Priors V G)
  (n : string) (ns : list string) (name : string) :
  label_names cfg = Some (n :: ns) ->
  In name (n :: ns) ->
  (forall m : SDSDModel V, ~ In name (all_label_names m)) ->
  (forall s s', attempt env cfg priors path_prefix s <> Accepted s') /\
  (forall fuel w start_idx batch_size,
     files (final_state
              (driver env cfg priors path_prefix fuel w start_idx batch_size))
     = []).
Proof.
  intros Hnames Hin Hunknown.
  assert (Hnever : forall s s', attempt env cfg priors path_prefix s <> Accepted s').
  { intros s s' Hacc. apply attempt_accepted in Hacc as (_ & labels & Htxt & _).
    apply labels_text_ok_inv in Htxt as [_ Hsub].
    apply (Hunknown (sim_model (simulate env cfg priors s))), Hsub.
    unfold configured_label_names. now rewrite Hnames. }
  split; [exact Hnever |].
  intros fuel w start_idx batch_size. unfold driver.
  now destruct (@never_accepted_run V SV G W env cfg priors path_prefix
                  (start_idx + batch_size) Hnever fuel
                  (initial_state env w start_idx)) as [-> _].
Qed.

(** X8: with the settings of [main] itself the selection of lines 216-217
    cannot raise KeyError: its eleven names are the derived labels in their
    order, so the dict handed to [write_variables] is the whole dict of
    log10 labels; and [prune_extinct_leaves] is off, so line 212 is not
    run. *)
Theorem main_config_selects_every_label (m : SDSDModel V) (lv : dict V) :
  get_log10_model_parameters m = Ok lv ->
  reduce_variables (label_names (main_config (V := V))) lv = Ok lv /\
  keys lv = all_label_names m /\
  prune_extinct_leaves (main_config (V := V)) = false.
Proof.
  intros Hlog. apply get_log10_model_parameters_ok in Hlog as ->.
  split; [reflexivity |]. split; [apply keys_log10_entries | reflexivity].
Qed.

(** X9: whatever the simulator answers and however an attempt ends
    (accepted, rejected or raising), it leaves the generator advanced by the
    five draws of the priors and the one draw of the seed; the model and the
    seed handed to the simulator are functions of the generator alone. *)
Theorem attempt_advances_generator (cfg : Config V) (priors : Priors V G)
  (s : State G W) :
  let drawn := draw_bdb_model priors (rng s) in
  let seeded := rng_random env (snd drawn) in
  rng (outcome_state (attempt env cfg priors path_prefix s)) = snd seeded /\
  sim_idx s <= sim_idx (outcome_state (attempt env cfg priors path_prefix s))
            <= sim_idx s + 1 /\
  sim_model (simulate env cfg priors s) = fst drawn /\
  sim_seed (simulate env cfg priors s) = fst seeded.
Proof.
  cbv zeta.
  assert (Hsim : sim_rng (simulate env cfg priors s) =
                   snd (rng_random env (snd (draw_bdb_model priors (rng s)))) /\
                 sim_model (simulate env cfg priors s) =
                   fst (draw_bdb_model priors (rng s)) /\
                 sim_seed (simulate env cfg priors s) =
                   fst (rng_random env (snd (draw_bdb_model priors (rng s))))).
  { unfold simulate.
    destruct (draw_bdb_model priors (rng s)) as [m g1]. simpl.
    destruct (rng_random env g1) as [seed g2]. simpl.
    destruct (sim_SDSD_tree env (world s) seed m (root_state cfg)
                (max_extant_leaves cfg) (max_extinct_leaves cfg)
                (max_total_leaves cfg) (max_time cfg)) as [[[sv r] bt] w1].
    simpl. repeat split. }
  destruct Hsim as (Hrng & Hmodel & Hseed).
  split; [| split; [| split; [exact Hmodel | exact Hseed]]].
  - destruct (attempt env cfg priors path_prefix s) as [s1 | s1 | e s1] eqn:Hatt;
      simpl.
    + apply attempt_rejected in Hatt as (-> & _). exact Hrng.
    + apply attempt_accepted in Hatt as (_ & labels & _ & ->). exact Hrng.
    + apply attempt_raised in Hatt as [-> _]. exact Hrng.
  - destruct (attempt env cfg priors path_prefix s) as [s1 | s1 | e s1] eqn:Hatt;
      simpl.
    + apply attempt_rejected in Hatt as (_ & _ & -> & _). lia.
    + apply attempt_accepted in Hatt as (_ & labels & _ & ->). simpl. lia.
    + apply attempt_raised in Hatt as [-> _]. simpl. lia.
Qed.

(** X10: [FixedRV] ignores the generator and leaves it untouched: when the
    five priors that are drawn are all fixed, drawing a model does not
    advance the generator, every attempt simulates the same model, and any
    two accepted replicates get the same labels file. *)
Theorem fixed_priors_give_one_model (cfg : Config V)
  (x1 x2 x3 x4 x5 : V) (mdl : Dist V G) :
  let priors :=
    {| state_rate := FixedRV G x1; log_birth_rate := FixedRV G x2;
       log_death_rate_prop := FixedRV G x3; burst_rate_prop := FixedRV G x4;
       burst_prob := FixedRV G x5; model := mdl |} in
  (forall g, snd (draw_bdb_model priors g) = g) /\
  (forall s t, sim_model (simulate env cfg priors s) =
               sim_model (simulate env cfg priors t)) /\
  (forall s t s' t',
     attempt env cfg priors path_prefix s = Accepted s' ->
     attempt env cfg priors path_prefix t = Accepted t' ->
     exists text,
       In (labels_path path_prefix (sim_idx s), text) (files s') /\
       In (labels_path path_prefix (sim_idx t), text) (files t')).
Proof.
  cbv zeta.
  assert (Hmodel : forall s t,
            sim_model (simulate env cfg
              {| state_rate := FixedRV G x1; log_birth_rate := FixedRV G x2;
                 log_death_rate_prop := FixedRV G x3;
                 burst_rate_prop := FixedRV G x4;
                 burst_prob := FixedRV G x5; model := mdl |} s) =
            sim_model (simulate env cfg
              {| state_rate := FixedRV G x1; log_birth_rate := FixedRV G x2;
                 log_death_rate_prop := FixedRV G x3;
                 burst_rate_prop := FixedRV G x4;
                 burst_prob := FixedRV G x5; model := mdl |} t)).
  { intros s t. unfold simulate, draw_bdb_model. simpl.
    destruct (rng_random env (rng s)) as [seed1 g1].
    destruct (rng_random env (rng t)) as [seed2 g2].
    destruct (sim_SDSD_tree env (world s) seed1 _ (root_state cfg)
                (max_extant_leaves cfg) (max_extinct_leaves cfg)
                (max_total_leaves cfg) (max_time cfg)) as [[[sv1 r1] bt1] w1].
    destruct (sim_SDSD_tree env (world t) seed2 _ (root_state cfg)
                (max_extant_leaves cfg) (max_extinct_leaves cfg)
                (max_total_leaves cfg) (max_time cfg)) as [[[sv2 r2] bt2] w2].
    reflexivity. }
  split; [reflexivity |]. split; [exact Hmodel |].
  intros s t s' t' Hs Ht.
  apply attempt_accepted in Hs as (_ & text & Htext & ->).
  apply attempt_accepted in Ht as (_ & text' & Htext' & ->).
  rewrite (Hmodel s t) in Htext. rewrite Htext in Htext'.
  injection Htext' as <-.
  exists text. split; simpl; apply in_or_app; right; now left.
Qed.

(** X11: the sampler draws one birth rate, one death rate, one burst
    probability and one state rate for both states, so in the log10 labels
    of a sampled model every label of state 1 repeats the label of state 0,
    and the two state-rate labels agree. *)
Theorem sampled_labels_are_symmetric (priors : Priors V G) (g : G) (d : dict V) :
  get_log10_model_parameters (fst (draw_bdb_model priors g)) = Ok d ->
  dict_get "log10_birth_rate_1" d = dict_get "log10_birth_rate_0" d /\
  dict_get "log10_death_rate_1" d = dict_get "log10_death_rate_0" d /\
  dict_get "log10_burst_prob_1" d = dict_get "log10_burst_prob_0" d /\
  dict_get "log10_expected_burst_rate_1" d =
    dict_get "log10_expected_burst_rate_0" d /\
  dict_get "log10_state_rate_10" d = dict_get "log10_state_rate_01" d /\
  dict_get "log10_birth_rate_0" d <> None.
Proof.
  intros Hlog. apply get_log10_model_parameters_ok in Hlog as ->.
  unfold draw_bdb_model.
  destruct (rvs (state_rate priors) g) as [sr g1].
  destruct (rvs (log_birth_rate priors) g1) as [lb g2].
  destruct (rvs (log_death_rate_prop priors) g2) as [ld g3].
  destruct (rvs (burst_rate_prop priors) g3) as [bm g4].
  destruct (rvs (burst_prob priors) g4) as [bp g5].
  simpl. repeat split. discriminate.
Qed.

(** X12: for a start index that is not negative (numpy takes no negative
    seed), when every attempt is accepted, a batch of [batch_size]
    replicates finishes within [batch_size] attempts, with three files for
    each replicate and nothing on stderr. *)
Theorem accepting_run_finishes (cfg : Config V) (priors : Priors V G)
  (w : W) (start_idx batch_size : Z) :
  0 <= start_idx ->
  (forall s, exists s', attempt env cfg priors path_prefix s = Accepted s') ->
  0 <= batch_size ->
  exists s',
    driver env cfg priors path_prefix (Z.to_nat batch_size) w
      start_idx batch_size = Finished s' /\
    sim_idx s' = start_idx + batch_size /\
    List.length (files s') = (3 * Z.to_nat batch_size)%nat /\
    stderr s' = [].
Proof.
  intros _ Hall Hbatch. unfold driver.
  set (stop := start_idx + batch_size).
  assert (Hloop : forall fuel s,
            fuel = Z.to_nat (stop - sim_idx s) -> sim_idx s <= stop ->
            exists s',
              main_loop env cfg priors path_prefix fuel stop s = Finished s' /\
              sim_idx s' = stop /\
              List.length (files s') = (List.length (files s) + 3 * fuel)%nat /\
              stderr s' = stderr s).
  { induction fuel as [| fuel IH]; intros s Hfuel Hle.
    - exists s. simpl.
      assert (Hge : (sim_idx s <? stop) = false) by (apply Z.ltb_ge; lia).
      rewrite Hge. repeat split; lia.
    - simpl.
      assert (Hlt : (sim_idx s <? stop) = true) by (apply Z.ltb_lt; lia).
      rewrite Hlt. destruct (Hall s) as [s1 Hacc]. rewrite Hacc.
      apply attempt_accepted in Hacc as (_ & labels & _ & Hs1).
      destruct (IH s1) as (s' & Hrun & Hidx & Hlen & Herr).
      + rewrite Hs1. simpl. lia.
      + rewrite Hs1. simpl. lia.
      + exists s'. split; [exact Hrun |]. split; [exact Hidx |].
        rewrite Hlen, Herr, Hs1. simpl. rewrite length_app. simpl.
        split; [lia | reflexivity]. }
  destruct (Hloop (Z.to_nat batch_size) (initial_state env w start_idx))
    as (s' & Hrun & Hidx & Hlen & Herr).
  - simpl. f_equal. lia.
  - simpl. lia.
  - exists s'. split; [exact Hrun |]. split; [exact Hidx |].
    split; [exact Hlen | exact Herr].
Qed.

End SettingFacts.

(** ** The tip-data file with states *)

Lemma tip_rows_false_inj (l1 : list Leaf) :
  forall l2, map label l1 = map label l2 ->
             tip_rows false l1 = tip_rows false l2 -> l1 = l2.
Proof.
  induction l1 as [| [lab1 z1] r1 IH]; intros [| [lab2 z2] r2] Hlab Hrows;
    try discriminate; [reflexivity |].
  simpl in Hlab. injection Hlab as <- Hlab.
  simpl in Hrows. unfold tip_row in Hrows. simpl in Hrows.
  rewrite !append_assoc in Hrows. apply append_inv_head in Hrows.
  simpl in Hrows. injection Hrows as Hrows.
  rewrite !append_assoc in Hrows. simpl in Hrows.
  apply first_line_inj in Hrows as [Hz Hrest];
    try apply int_str_no_newline.
  apply int_str_inj in Hz as <-. now rewrite (IH _ Hlab Hrest).
Qed.

(** X13: written with [all_zeros] off, the tip-data file tells the states:
    two trees with the same leaf labels get the same text only if their
    leaves have the same states; written with [all_zeros] on, the text is
    the same whatever the states are. *)
Theorem tip_states_are_kept_unless_all_zeros (root1 root2 : Tree) :
  map label (leaf_iter root1) = map label (leaf_iter root2) ->
  (stream_tip_states root1 false = stream_tip_states root2 false <->
   leaf_iter root1 = leaf_iter root2) /\
  stream_tip_states root1 true = stream_tip_states root2 true.
Proof.
  intros Hlab. unfold stream_tip_states. split; [split |].
  - intros Heq. apply append_inv_head in Heq. apply append_inv_head in Heq.
    now apply tip_rows_false_inj.
  - now intros ->.
  - now rewrite !tip_rows_all_zeros, Hlab.
Qed.

(** ** The command line *)

Section CliFacts.

Variable int : string -> option Z.

(** X14: [parse_cli_args] returns the second and third words of the command
    line and the integers of the fourth and fifth, ignoring the program
    name and any further word.  It ends in IndexError when a word it reaches
    for is missing, but a fourth word that is no integer raises ValueError
    before the missing fifth is noticed. *)
Theorem parse_cli_args_spec (argv : list string) :
  (forall out_path prefix sim_idx batch_size,
     Cli.parse_cli_args int argv = inr (out_path, prefix, sim_idx, batch_size)
     <->
     exists prog a3 a4 rest,
       argv = prog :: out_path :: prefix :: a3 :: a4 :: rest /\
       int a3 = Some sim_idx /\ int a4 = Some batch_size) /\
  (Cli.parse_cli_args int argv = inl Cli.IndexError <->
   (List.length argv <= 3)%nat \/
   (List.length argv = 4%nat /\ int (nth 3 argv "") <> None)).
Proof.
  unfold Cli.parse_cli_args, Cli.argv_item, Cli.int_arg.
  destruct argv as [| prog [| o [| p [| a3 [| a4 rest]]]]]; simpl.
  - split.
    + intros; split; [discriminate |].
      intros (? & ? & ? & ? & [=] & _).
    + split; [left; lia | reflexivity].
  - split.
    + intros; split; [discriminate |].
      intros (? & ? & ? & ? & [=] & _).
    + split; [left; lia | reflexivity].
  - split.
    + intros; split; [discriminate |].
      intros (? & ? & ? & ? & [=] & _).
    + split; [left; lia | reflexivity].
  - split.
    + intros; split; [discriminate |].
      intros (? & ? & ? & ? & [=] & _).
    + split; [left; lia | reflexivity].
  - split.
    + intros; split; [destruct (int a3); discriminate |].
      intros (? & ? & ? & ? & [=] & _).
    + destruct (int a3) as [i |]; split.
      * intros _. right. split; [reflexivity | discriminate].
      * reflexivity.
      * discriminate.
      * intros [Hlen | [_ Hint]]; [lia | now elim Hint].
  - split.
    + intros out_path prefix sim_idx batch_size. split.
      * destruct (int a3) as [i |] eqn:H3; [| discriminate].
        destruct (int a4) as [b |] eqn:H4; [| discriminate].
        intros [= <- <- <- <-]. now exists prog, a3, a4, rest.
      * intros (prog' & a3' & a4' & rest' & [= <- <- <- <- <- <-] & H3 & H4).
        now rewrite H3, H4.
    + split.
      * destruct (int a3); [| discriminate]. destruct (int a4); discriminate.
      * intros [Hlen | [Hlen _]]; [lia | discriminate].
Qed.

End CliFacts.

(** ** The ticks of the burst-count histogram *)

Section BurstPlotFacts.

Import BurstPlot.

Lemma py_min_spec (l : list Z) :
  l <> [] ->
  exists lo, py_min l = Some lo /\ In lo l /\ forall v, In v l -> lo <= v.
Proof.
  induction l as [| x rest IH]; [now intros [] |]. intros _. simpl.
  destruct rest as [| y rest'].
  - exists x. simpl. split; [reflexivity |]. split; [now left |].
    intros v [<- | []]. lia.
  - destruct IH as (m & -> & Hin & Hle); [discriminate |].
    destruct (m <? x) eqn:Hlt.
    + apply Z.ltb_lt in Hlt. exists m. split; [reflexivity |].
      split; [now right |]. intros v [<- | Hv]; [lia | now apply Hle].
    + apply Z.ltb_ge in Hlt. exists x. split; [reflexivity |].
      split; [now left |].
      intros v [<- | Hv]; [lia |]. specialize (Hle v Hv). lia.
Qed.

Lemma py_max_spec (l : list Z) :
  l <> [] ->
  exists hi, py_max l = Some hi /\ In hi l /\ forall v, In v l -> v <= hi.
Proof.
  induction l as [| x rest IH]; [now intros [] |]. intros _. simpl.
  destruct rest as [| y rest'].
  - exists x. simpl. split; [reflexivity |]. split; [now left |].
    intros v [<- | []]. lia.
  - destruct IH as (m & -> & Hin & Hle); [discriminate |].
    destruct (x <? m) eqn:Hlt.
    + apply Z.ltb_lt in Hlt. exists m. split; [reflexivity |].
      split; [now right |]. intros v [<- | Hv]; [lia | now apply Hle].
    + apply Z.ltb_ge in Hlt. exists x. split; [reflexivity |].
      split; [now left |].
      intros v [<- | Hv]; [lia |]. specialize (Hle v Hv). lia.
Qed.

Lemma range_in (lo hi v : Z) : In v (range lo hi) <-> lo <= v < hi.
Proof.
  unfold range. rewrite in_map_iff. split.
  - intros (k & <- & Hk). apply in_seq in Hk. lia.
  - intros Hv. exists (Z.to_nat (v - lo)). split; [lia |]. apply in_seq. lia.
Qed.

(** X15: for data that is not empty, [plot_int_histo_on_ax] ends by setting
    the ticks and the tick labels of the x axis to the same list: the
    integers from the smallest to the largest value, one tick for each, so
    every value of the data has its tick. *)
Theorem xticks_cover_the_data (int_values : list Z) (stat : string)
  (xlabel ylabel title : option string) (color : string) :
  int_values <> [] ->
  exists lo hi calls,
    plot_int_histo_on_ax int_values stat xlabel ylabel title color =
      ((calls ++ [Set_xticks (range lo (hi + 1));
                  Set_xticklabels (range lo (hi + 1))])%list, true) /\
    In lo int_values /\ In hi int_values /\
    (forall v, In v int_values -> In v (range lo (hi + 1))) /\
    (forall v, In v (range lo (hi + 1)) <-> lo <= v <= hi) /\
    List.length (range lo (hi + 1)) = Z.to_nat (hi - lo + 1).
Proof.
  intros Hne. unfold plot_int_histo_on_ax.
  destruct (py_min_spec Hne) as (lo & -> & Hlo & Hmin).
  destruct (py_max_spec Hne) as (hi & -> & Hhi & Hmax).
  exists lo, hi. eexists. split; [reflexivity |].
  split; [exact Hlo |]. split; [exact Hhi |]. split; [| split].
  - intros v Hv. apply range_in. specialize (Hmin v Hv).
    specialize (Hmax v Hv). lia.
  - intros v. rewrite range_in. lia.
  - unfold range. rewrite length_map, length_seq. f_equal. lia.
Qed.

End BurstPlotFacts.

(** ** The files of the report *)

Section PlotFileFacts.

Import PlotFiles.

Lemma split_nonempty (c : ascii) (s : string) : split c s <> [].
Proof.
  destruct s as [| a rest]; simpl; [discriminate |].
  destruct (Ascii.eqb a c); [discriminate |].
  destruct (split c rest); discriminate.
Qed.

Lemma join_cons (sep x : string) (l : list string) :
  l <> [] -> join sep (x :: l) = x ++ sep ++ join sep l.
Proof. destruct l; [now intros [] | reflexivity]. Qed.

Lemma join_app (sep : string) (a b : list string) :
  a <> [] -> b <> [] -> join sep (a ++ b) = join sep a ++ sep ++ join sep b.
Proof.
  induction a as [| x a IH]; [now intros [] |]. intros _ Hb.
  destruct a as [| y a'].
  - simpl app. now rewrite join_cons.
  - change ((x :: y :: a') ++ b)%list with (x :: ((y :: a') ++ b))%list.
    rewrite join_cons by discriminate.
    rewrite IH by (discriminate || assumption).
    rewrite (join_cons sep x (l := y :: a')) by discriminate.
    now rewrite !append_assoc.
Qed.

(** Joining the pieces of a split with the separator gives the text back. *)
Lemma join_split (c : ascii) (s : string) :
  join (String c "") (split c s) = s.
Proof.
  induction s as [| a rest IH]; [reflexivity |]. simpl.
  destruct (Ascii.eqb_spec a c) as [-> | Hneq].
  - rewrite join_cons by apply split_nonempty. simpl. now rewrite IH.
  - pose proof (split_nonempty c rest) as Hne.
    destruct (split c rest) as [| tok toks]; [now elim Hne |].
    destruct toks as [| tok' toks'].
    + simpl in *. now rewrite IH.
    + rewrite <- IH. rewrite !join_cons by discriminate. reflexivity.
Qed.

Lemma split_absent (c : ascii) (s : string) : Forall (absent c) (split c s).
Proof.
  induction s as [| a rest IH]; simpl.
  - repeat constructor.
  - destruct (Ascii.eqb_spec a c) as [-> | Hneq].
    + constructor; [exact I | exact IH].
    + destruct (split c rest) as [| tok toks]; [repeat constructor; auto |].
      inversion IH; subst. constructor; [now split | assumption].
Qed.

Lemma split_of_absent (c : ascii) (s : string) : absent c s -> split c s = [s].
Proof.
  induction s as [| a rest IH]; [reflexivity |]. intros [Hneq Habs]. simpl.
  destruct (Ascii.eqb_spec a c) as [-> | _]; [now elim Hneq |].
  now rewrite (IH Habs).
Qed.

Lemma split_append_absent (c : ascii) (a b : string) :
  absent c a -> split c (a ++ String c b) = a :: split c b.
Proof.
  induction a as [| ch a IH]; intros Habs; simpl.
  - now rewrite Ascii.eqb_refl.
  - destruct Habs as [Hneq Habs].
    destruct (Ascii.eqb_spec ch c) as [-> | _]; [now elim Hneq |].
    now rewrite (IH Habs).
Qed.

Lemma prefix_spec (p : string) :
  forall s, prefix p s = true <-> exists b, s = p ++ b.
Proof.
  induction p as [| a p IH]; intros s; simpl.
  - destruct s; split; try reflexivity; intros _; now eexists.
  - destruct s as [| b s]; simpl.
    + split; [discriminate | intros [x [=]]].
    + destruct (ascii_dec a b) as [-> | Hneq].
      * rewrite IH. split; intros [x Hx].
        -- exists x. now rewrite Hx.
        -- injection Hx as ->. now exists x.
      * split; [discriminate |]. intros [x [= Hab _]]. now elim Hneq.
Qed.

(** [pattern in s]: the pattern occurs somewhere in the text. *)
Lemma contains_spec (p : string) (s : string) :
  contains p s = true <-> exists a b, s = a ++ p ++ b.
Proof.
  induction s as [| ch s IH]; cbn [contains].
  - destruct (prefix p "") eqn:Hp.
    + split; [| reflexivity]. intros _. apply prefix_spec in Hp as [b Hb].
      now exists "", b.
    + split; [discriminate |]. intros (a & b & Hab).
      destruct a; [| discriminate]. simpl in Hab.
      assert (Hpre : prefix p "" = true) by (apply prefix_spec; now exists b).
      congruence.
  - destruct (prefix p (String ch s)) eqn:Hp.
    + split; [| reflexivity]. intros _. apply prefix_spec in Hp as [b Hb].
      now exists "", b.
    + rewrite IH. split.
      * intros (a & b & ->). now exists (String ch a), b.
      * intros (a & b & Hab). destruct a as [| ch' a].
        -- simpl in Hab.
           assert (Hpre : prefix p (String ch s) = true)
             by (apply prefix_spec; now exists b).
           congruence.
        -- injection Hab as _ ->. now exists a, b.
Qed.

Lemma filter_files_loop_spec (pattern : string) (files : list string) :
  forall ret,
    filter_files_loop files pattern ret =
    (ret ++ filter (fun f => contains pattern (file_key f)) files)%list.
Proof.
  induction files as [| f rest IH]; intros ret; simpl.
  - now rewrite app_nil_r.
  - rewrite IH. destruct (contains pattern (file_key f)); [| reflexivity].
    now rewrite <- app_assoc.
Qed.

(** X16: [filter_files] keeps, in their order, the files whose key (the
    last two dot-separated pieces of the name) contains the pattern
    somewhere; filtering twice with one pattern changes nothing, and the
    empty pattern keeps every file. *)
Theorem filter_files_spec (files : list string) (pattern : string) :
  filter_files files pattern =
    filter (fun f => contains pattern (file_key f)) files /\
  (forall f, In f (filter_files files pattern) <->
             In f files /\ exists a b, file_key f = a ++ pattern ++ b) /\
  filter_files (filter_files files pattern) pattern =
    filter_files files pattern /\
  filter_files files "" = files.
Proof.
  assert (Hspec : forall l pat,
            filter_files l pat =
            filter (fun f => contains pat (file_key f)) l).
  { intros l pat. unfold filter_files. now rewrite filter_files_loop_spec. }
  split; [apply Hspec |]. split; [| split].
  - intros f. rewrite Hspec, filter_In, contains_spec. reflexivity.
  - rewrite !Hspec. induction files as [| f rest IH]; [reflexivity |]. simpl.
    destruct (contains pattern (file_key f)) eqn:Hc; simpl;
      [rewrite Hc; now f_equal | exact IH].
  - rewrite Hspec. induction files as [| f rest IH]; [reflexivity |]. simpl.
    assert (Hc : contains "" (file_key f) = true).
    { apply contains_spec. now exists "", (file_key f). }
    rewrite Hc. now f_equal.
Qed.

Lemma last_two_cases (A : Type) (l : list A) :
  l <> [] ->
  (l = last_two l /\ (List.length l <= 2)%nat) \/
  (exists front x y, l = (front ++ [x; y])%list /\ front <> []
                     /\ last_two l = [x; y]).
Proof.
  intros Hne. unfold last_two.
  destruct (Nat.le_gt_cases (List.length l) 2) as [Hle | Hgt].
  - left. replace (List.length l - 2)%nat with 0%nat by lia. now split.
  - right. pose proof (firstn_skipn (List.length l - 2) l) as Hsplit.
    pose proof (length_skipn (List.length l - 2) l) as Hlen.
    destruct (skipn (List.length l - 2) l) as [| x [| y [| z rest]]] eqn:Hs;
      simpl in Hlen; try lia.
    exists (firstn (List.length l - 2) l), x, y.
    split; [now symmetry |]. split; [| reflexivity].
    intros Hnil. apply (f_equal (@List.length A)) in Hnil.
    rewrite length_firstn in Hnil. simpl in Hnil. lia.
Qed.

(** X17: the key [filter_files] tests is the whole file name when the name
    has no dot or one dot, and otherwise exactly what follows the
    second-to-last dot of the name: its last two dot-free pieces with the
    dot between them. *)
Theorem file_key_is_the_end (f : string) :
  (absent "."%char f /\ file_key f = f) \/
  (exists a b, absent "."%char a /\ absent "."%char b /\
               f = a ++ "." ++ b /\ file_key f = f) \/
  (exists front a b, absent "."%char a /\ absent "."%char b /\
                     f = front ++ "." ++ a ++ "." ++ b /\
                     file_key f = a ++ "." ++ b).
Proof.
  unfold file_key.
  pose proof (join_split "."%char f) as Hjoin.
  pose proof (split_absent "."%char f) as Habs.
  pose proof (split_nonempty "."%char f) as Hne.
  destruct (last_two_cases Hne)
    as [[Hsame Hlen] | (front & x & y & Hl & Hfront & Hlast)].
  - rewrite <- Hsame, Hjoin.
    destruct (split "."%char f) as [| a [| b [| c rest]]];
      simpl in Hlen; try lia; try (now elim Hne).
    + left. simpl in Hjoin. subst f. inversion Habs; subst. now split.
    + right. left. exists a, b. inversion Habs as [| ? ? Ha Hrest]; subst.
      inversion Hrest; subst. now repeat split.
  - right. right. rewrite Hlast. rewrite Hl in Hjoin, Habs.
    rewrite join_app in Hjoin by (assumption || discriminate).
    exists (join "." front), x, y. apply Forall_app in Habs as [_ Hxy].
    inversion Hxy as [| ? ? Hx Hrest]; subst. inversion Hrest; subst.
    split; [assumption |]. split; [assumption |].
    split; [now symmetry | reflexivity].
Qed.

Lemma hd_split_absent (c : ascii) (f : string) :
  absent c (hd "" (split c f)).
Proof.
  pose proof (split_absent c f) as Habs.
  destruct (split c f); [exact I | now inversion Habs].
Qed.

(** X18: the first loop of [combine_plots] never picks the summary report
    itself, [prefix.summary.pdf], so a report is not merged into its
    successor; and since the prefix is compared with the text before the
    first dot of a name, a prefix that contains a dot picks no file at
    all. *)
Theorem report_pages_exclude_the_summary (plt_prefix : string) :
  is_report_page plt_prefix (plt_prefix ++ ".summary.pdf") = false /\
  (~ absent "."%char plt_prefix ->
   forall f, is_report_page plt_prefix f = false).
Proof.
  assert (Hdot : forall f, String.eqb plt_prefix (hd "" (split "."%char f)) = true ->
                           absent "."%char plt_prefix).
  { intros f Heq. apply String.eqb_eq in Heq. rewrite Heq.
    apply hd_split_absent. }
  split.
  - unfold is_report_page. cbv zeta.
    destruct (String.eqb plt_prefix
                (hd "" (split "."%char (plt_prefix ++ ".summary.pdf")))) eqn:Heq.
    + pose proof (Hdot _ Heq) as Habs.
      change ".summary.pdf" with (String "."%char "summary.pdf").
      rewrite (@split_append_absent "."%char plt_prefix "summary.pdf" Habs).
      reflexivity.
    + now rewrite andb_false_r.
  - intros Hhas f. unfold is_report_page. cbv zeta.
    destruct (String.eqb plt_prefix (hd "" (split "."%char f))) eqn:Heq.
    + now elim Hhas; apply (Hdot f).
    + now rewrite andb_false_r.
Qed.

End PlotFileFacts.

(** ** The properties on concrete runs *)

Section Runs.

Import TestDouble.

Local Abbreviation s0 := (start_state 3).
Local Abbreviation pp := "out/sim".
Local Abbreviation after_one_attempt :=
  {| rng := 1163074432; world := 1%nat; sim_idx := 3;
     files := []; stderr := [] |}.

Lemma accepted_replicate_has_tree_width_witness :
  (exists s',
     attempt (env_of (sim_fixed 500)) cfg fixed_priors pp s0 = Accepted s' /\
     number_of_extant_leaves
       (sim_root (simulate (env_of (sim_fixed 500)) cfg fixed_priors s0)) = 500 /\
     sim_idx s' = 4 /\
     map fst (files s') =
       ["out/sim.3.labels.csv"; "out/sim.3.dat.csv"; "out/sim.3.tre"]) /\
  (passes_filters cfg true (stub_tree 499 0) = true /\
   499 <> tree_width cfg /\
   attempt (env_of (sim_fixed 499)) cfg fixed_priors pp s0 =
     Raised AssertionError after_one_attempt /\
   main_loop (env_of (sim_fixed 499)) cfg fixed_priors pp 1 5 s0 =
     Crashed AssertionError after_one_attempt).
Proof.
  split.
  - assert (Hacc : exists s',
              attempt (env_of (sim_fixed 500)) cfg fixed_priors pp s0 = Accepted s')
      by (vm_compute; eexists; reflexivity).
    destruct Hacc as [s' Hacc]. exists s'. split; [exact Hacc |].
    exact (proj1 (accepted_replicate_has_tree_width
                    (env_of (sim_fixed 500)) cfg fixed_priors pp s0) s' Hacc).
  - assert (Hpass : passes_filters cfg true (stub_tree 499 0) = true)
      by (vm_compute; reflexivity).
    assert (Hneq : 499 <> tree_width cfg) by (vm_compute; discriminate).
    destruct (proj2 (accepted_replicate_has_tree_width
                       (env_of (sim_fixed 499)) cfg fixed_priors pp s0)
                Hpass Hneq) as [Hatt Hloop].
    split; [exact Hpass |]. split; [exact Hneq |]. split; [exact Hatt |].
    apply (Hloop 0%nat 5). vm_compute. reflexivity.
Defined.

Lemma rejected_attempt_writes_nothing_witness :
  (attempt (env_of (sim_extinct_once 500)) cfg fixed_priors pp s0 =
     Rejected after_one_attempt /\
   files after_one_attempt = files s0 /\ sim_idx after_one_attempt = sim_idx s0) /\
  (exists s',
     driver (env_of (sim_extinct_once 500)) cfg fixed_priors pp 5 0%nat 3 2 =
       Finished s' /\
     map fst (files s') =
       [ "out/sim.3.labels.csv"; "out/sim.3.dat.csv"; "out/sim.3.tre";
         "out/sim.4.labels.csv"; "out/sim.4.dat.csv"; "out/sim.4.tre" ] /\
     sim_idx s' = 5).
Proof.
  pose proof (rejected_attempt_writes_nothing
                (env_of (sim_extinct_once 500)) cfg fixed_priors pp)
    as [Hrej Hrun].
  split.
  - assert (Hatt : attempt (env_of (sim_extinct_once 500)) cfg fixed_priors pp s0
                   = Rejected after_one_attempt) by (vm_compute; reflexivity).
    destruct (Hrej s0 after_one_attempt Hatt) as (Hfiles & Hidx & _).
    split; [exact Hatt |]. split; [exact Hfiles | exact Hidx].
  - assert (Hfin : exists s',
              driver (env_of (sim_extinct_once 500)) cfg fixed_priors pp
                5 0%nat 3 2 = Finished s')
      by (vm_compute; eexists; reflexivity).
    destruct Hfin as [s' Hfin]. exists s'.
    destruct (Hrun 5%nat 0%nat 3 2 s' Hfin) as [Hpaths Hidx].
    split; [exact Hfin |]. split; [exact Hpaths |].
    apply Hidx. vm_compute. discriminate.
Defined.

(** C3: the first attempt of the main configuration dies out; it is
    rejected and the slot retried with stderr left empty. *)
Lemma failed_survival_is_silent :
  keep_extinct_trees cfg = false /\
  sim_survived (simulate (env_of (sim_extinct_once 500)) cfg fixed_priors s0)
    = false /\
  stderr s0 = [] /\
  attempt (env_of (sim_extinct_once 500)) cfg fixed_priors pp s0 =
    Rejected {| rng := 1163074432; world := 1%nat; sim_idx := 3;
                files := []; stderr := [] |}.
Proof. vm_compute. repeat split. Qed.

Lemma overage_rejections_are_logged_witness :
  let s' := log_stderr
              (discard_message "max_extant_leaves" (Some 500) 501)
              after_one_attempt in
  attempt (env_of (sim_overshoot_once 500)) cfg fixed_priors pp s0 = Rejected s' /\
  stderr s' =
    (stderr s0 ++ [discard_message "max_extant_leaves" (Some 500) 501])%list.
Proof.
  intros s'.
  assert (Hatt : attempt (env_of (sim_overshoot_once 500)) cfg fixed_priors pp s0
                 = Rejected s') by (vm_compute; reflexivity).
  split; [exact Hatt |].
  exact (proj1 (overage_rejections_are_logged
                  (env_of (sim_overshoot_once 500)) cfg fixed_priors pp)
               s0 s' Hatt).
Defined.

Lemma driver_is_deterministic_witness :
  deterministic_oracle (env_of (sim_by_seed 500)) /\
  exists s1 s2,
    driver (env_of (sim_by_seed 500)) cfg fixed_priors pp 5 0%nat 3 1 = Finished s1 /\
    driver (env_of (sim_by_seed 500)) cfg fixed_priors pp 9 7%nat 3 1 = Finished s2 /\
    world s1 = 4%nat /\ world s2 = 11%nat /\
    files s1 = files s2 /\ stderr s1 = stderr s2 /\ rng s1 = rng s2.
Proof.
  assert (Hdet : deterministic_oracle (env_of (sim_by_seed 500)))
    by (intros w w' seed m rs a b c t; reflexivity).
  split; [exact Hdet |].
  assert (H1 : exists s1,
            driver (env_of (sim_by_seed 500)) cfg fixed_priors pp 5 0%nat 3 1
            = Finished s1 /\ world s1 = 4%nat)
    by (vm_compute; eexists; split; reflexivity).
  assert (H2 : exists s2,
            driver (env_of (sim_by_seed 500)) cfg fixed_priors pp 9 7%nat 3 1
            = Finished s2 /\ world s2 = 11%nat)
    by (vm_compute; eexists; split; reflexivity).
  destruct H1 as (s1 & H1 & Hw1), H2 as (s2 & H2 & Hw2).
  exists s1, s2.
  split; [exact H1 |]. split; [exact H2 |].
  split; [exact Hw1 |]. split; [exact Hw2 |].
  exact (@driver_is_deterministic _ _ _ _
           (env_of (sim_by_seed 500)) cfg fixed_priors pp 5 9 0%nat 7%nat 3 1
           s1 s2 Hdet H1 H2).
Defined.

(** C6: in strict mode with both the limit on the living leaves and the
    target width at 0, an attempt with one living leaf passes the checks and
    fails the assertion. *)
Lemma zero_width_overage_aborts :
  max_leaves_strict zero_width_config = true /\
  max_extant_leaves zero_width_config = Some (tree_width zero_width_config) /\
  number_of_extant_leaves
    (sim_root (simulate (env_of (sim_fixed 1)) zero_width_config fixed_priors s0))
    = tree_width zero_width_config + 1 /\
  attempt (env_of (sim_fixed 1)) zero_width_config fixed_priors pp s0 =
    Raised AssertionError
      {| rng := 1163074432; world := 1%nat; sim_idx := 3;
         files := []; stderr := [] |}.
Proof. vm_compute. repeat split. Qed.

Lemma strict_extant_overage_is_retried_witness :
  max_leaves_strict cfg = true /\
  max_extant_leaves cfg = Some (tree_width cfg) /\
  tree_width cfg <> 0 /\
  number_of_extant_leaves
    (sim_root (simulate (env_of (sim_overshoot_once 500)) cfg fixed_priors s0))
    = tree_width cfg + 1 /\
  checks cfg true (stub_tree 501 0) <> Assert_fails /\
  exists s',
    attempt (env_of (sim_overshoot_once 500)) cfg fixed_priors pp s0 = Rejected s' /\
    sim_idx s' = sim_idx s0 /\ files s' = files s0.
Proof.
  assert (Hstrict : max_leaves_strict cfg = true) by reflexivity.
  assert (Hmax : max_extant_leaves cfg = Some (tree_width cfg)) by reflexivity.
  assert (Hwidth : tree_width cfg <> 0) by (vm_compute; discriminate).
  assert (Hextant :
            number_of_extant_leaves
              (sim_root (simulate (env_of (sim_overshoot_once 500)) cfg
                           fixed_priors s0)) = tree_width cfg + 1)
    by (vm_compute; reflexivity).
  destruct (@strict_extant_overage_is_retried _ _ _ _
              (env_of (sim_overshoot_once 500)) cfg fixed_priors pp s0
              Hstrict Hmax Hwidth Hextant)
    as (Hchk & s' & Hrej & Hidx & Hfiles & _).
  split; [exact Hstrict |]. split; [exact Hmax |]. split; [exact Hwidth |].
  split; [exact Hextant |]. split; [exact Hchk |].
  exists s'. split; [exact Hrej |]. split; [exact Hidx | exact Hfiles].
Defined.

Lemma labels_file_is_sorted_header_and_row_witness :
  exists s',
    attempt (env_of (sim_fixed 500)) cfg fixed_priors pp s0 = Accepted s' /\
    exists names vals data tree,
      files s' = (files s0 ++
        [ ("out/sim.3.labels.csv",
           (join "," names ++ nl ++ join "," (map float_str vals) ++ nl)%string);
          ("out/sim.3.dat.csv", data); ("out/sim.3.tre", tree) ])%list /\
      Sorted str_lt names /\
      (forall x, In x names <-> In x (configured_label_names cfg fixed_model)) /\
      Forall2 (fun n v => exists k x,
                 In (k, x) (get_model_parameters fixed_model) /\
                 n = "log10_" ++ k /\ v = log10 x) names vals.
Proof.
  assert (Hacc : exists s',
            attempt (env_of (sim_fixed 500)) cfg fixed_priors pp s0 = Accepted s')
    by (vm_compute; eexists; reflexivity).
  destruct Hacc as [s' Hacc]. exists s'. split; [exact Hacc |].
  exact (@labels_file_is_sorted_header_and_row _ _ _ _
           (env_of (sim_fixed 500)) cfg fixed_priors pp s0 s' Hacc).
Defined.

Lemma get_log10_model_parameters_spec_witness :
  (forall k v, In (k, v) (get_model_parameters fixed_model) -> fle0 v = false) /\
  get_log10_model_parameters fixed_model =
    Ok [ ("log10_state_rate_01", (-5)%Q); ("log10_state_rate_10", (-5)%Q);
         ("log10_birth_rate_0", (-1)%Q); ("log10_birth_rate_1", (-1)%Q);
         ("log10_death_rate_0", (-2)%Q); ("log10_death_rate_1", (-2)%Q);
         ("log10_burst_rate", (-2)%Q);
         ("log10_burst_prob_0", (-1)%Q); ("log10_burst_prob_1", (-1)%Q);
         ("log10_expected_burst_rate_0", (-2)%Q);
         ("log10_expected_burst_rate_1", (-2)%Q) ].
Proof.
  assert (Hpos : forall k v,
            In (k, v) (get_model_parameters fixed_model) -> fle0 v = false).
  { intros k v Hin. vm_compute in Hin.
    repeat (destruct Hin as [Hin | Hin];
            [injection Hin as <- <-; vm_compute; reflexivity |]).
    destruct Hin. }
  split; [exact Hpos |].
  exact (proj2 (get_log10_model_parameters_spec fixed_model) Hpos).
Defined.



End Runs.

(** ** Further properties on concrete runs *)

Section MoreRuns.

Import TestDouble.

Local Abbreviation s0 := (start_state 3).
Local Abbreviation pp := "out/sim".
Local Abbreviation after_one_attempt :=
  {| rng := 1163074432; world := 1%nat; sim_idx := 3;
     files := []; stderr := [] |}.

Lemma attempt_rejected_iff_witness :
  (passes_filters cfg
     (sim_survived (simulate (env_of (sim_extinct_once 500)) cfg fixed_priors s0))
     (sim_root (simulate (env_of (sim_extinct_once 500)) cfg fixed_priors s0))
   = false /\
   exists s', attempt (env_of (sim_extinct_once 500)) cfg fixed_priors pp s0
              = Rejected s') /\
  (max_leaves_strict lenient_config = false /\
   keep_extinct_trees lenient_config = true /\
   forall s', attempt (env_of (sim_extinct_once 500)) lenient_config
                fixed_priors pp s0 <> Rejected s').
Proof.
  split.
  - assert (Hfail : passes_filters cfg
              (sim_survived
                 (simulate (env_of (sim_extinct_once 500)) cfg fixed_priors s0))
              (sim_root
                 (simulate (env_of (sim_extinct_once 500)) cfg fixed_priors s0))
              = false) by (vm_compute; reflexivity).
    split; [exact Hfail |].
    exact (proj2 (proj1 (@attempt_rejected_iff _ _ _ _
                           (env_of (sim_extinct_once 500)) cfg fixed_priors pp s0))
                 Hfail).
  - assert (Hstrict : max_leaves_strict lenient_config = false) by reflexivity.
    assert (Hkeep : keep_extinct_trees lenient_config = true) by reflexivity.
    split; [exact Hstrict |]. split; [exact Hkeep |].
    exact (proj2 (@attempt_rejected_iff _ _ _ _
                    (env_of (sim_extinct_once 500)) lenient_config
                    fixed_priors pp s0) Hstrict Hkeep).
Defined.



Lemma attempt_failure_table_witness :
  attempt (env_of (sim_fixed 499)) cfg fixed_priors pp s0 =
    Raised AssertionError after_one_attempt /\
  attempt (env_of (sim_fixed 500)) prune_config fixed_priors pp s0 =
    Raised UnboundLocalError after_one_attempt /\
  attempt (env_of (sim_fixed 500)) cfg zero_prob_priors pp s0 =
    Raised ValueError after_one_attempt /\
  attempt (env_of (sim_fixed 500)) unknown_label_config fixed_priors pp s0 =
    Raised KeyError after_one_attempt.
Proof.
  split; [| split; [| split]].
  - assert (Hpass : passes_filters cfg
              (sim_survived (simulate (env_of (sim_fixed 499)) cfg fixed_priors s0))
              (sim_root (simulate (env_of (sim_fixed 499)) cfg fixed_priors s0))
              = true) by (vm_compute; reflexivity).
    apply (proj1 (@attempt_failure_table _ _ _ _
                    (env_of (sim_fixed 499)) cfg fixed_priors pp s0 Hpass)).
    vm_compute. discriminate.
  - assert (Hpass : passes_filters prune_config
              (sim_survived
                 (simulate (env_of (sim_fixed 500)) prune_config fixed_priors s0))
              (sim_root
                 (simulate (env_of (sim_fixed 500)) prune_config fixed_priors s0))
              = true) by (vm_compute; reflexivity).
    apply (proj1 (proj2 (@attempt_failure_table _ _ _ _
                           (env_of (sim_fixed 500)) prune_config fixed_priors
                           pp s0 Hpass))); vm_compute; reflexivity.
  - assert (Hpass : passes_filters cfg
              (sim_survived
                 (simulate (env_of (sim_fixed 500)) cfg zero_prob_priors s0))
              (sim_root
                 (simulate (env_of (sim_fixed 500)) cfg zero_prob_priors s0))
              = true) by (vm_compute; reflexivity).
    apply (proj1 (proj2 (@attempt_failure_table _ _ _ _
                           (env_of (sim_fixed 500)) cfg zero_prob_priors
                           pp s0 Hpass))).
    + vm_compute. reflexivity.
    + reflexivity.
    + exists "burst_prob_0", 0%Q. split; [| vm_compute; reflexivity].
      vm_compute. do 7 right. left. reflexivity.
  - assert (Hpass : passes_filters unknown_label_config
              (sim_survived
                 (simulate (env_of (sim_fixed 500)) unknown_label_config
                    fixed_priors s0))
              (sim_root
                 (simulate (env_of (sim_fixed 500)) unknown_label_config
                    fixed_priors s0))
              = true) by (vm_compute; reflexivity).
    apply (proj1 (proj2 (@attempt_failure_table _ _ _ _
                           (env_of (sim_fixed 500)) unknown_label_config
                           fixed_priors pp s0 Hpass))).
    + vm_compute. reflexivity.
    + reflexivity.
    + intros k v Hin. vm_compute in Hin.
      repeat (destruct Hin as [Hin | Hin];
              [injection Hin as <- <-; vm_compute; reflexivity |]).
      destruct Hin.
    + exists "root_state". split; [right; left; reflexivity |].
      intros Hm. unfold all_label_names in Hm. simpl in Hm.
      repeat (destruct Hm as [Hm | Hm]; [discriminate |]). exact Hm.
Defined.

Lemma loop_head_has_complete_triples_witness :
  0 <= 3 /\
  exists s',
    driver (env_of (sim_fixed 500)) cfg fixed_priors pp 1 0%nat 3 2
      = Out_of_fuel s' /\
    map fst (files s') =
      ["out/sim.3.labels.csv"; "out/sim.3.dat.csv"; "out/sim.3.tre"] /\
    3 <= sim_idx s' <= 5.
Proof.
  assert (Hstart : 0 <= 3) by (vm_compute; discriminate).
  assert (Hrun : exists s',
            driver (env_of (sim_fixed 500)) cfg fixed_priors pp 1 0%nat 3 2
            = Out_of_fuel s' /\ sim_idx s' = 4)
    by (vm_compute; eexists; split; reflexivity).
  destruct Hrun as (s' & Hrun & Hidx).
  split; [exact Hstart |]. exists s'. split; [exact Hrun |].
  destruct (@loop_head_has_complete_triples _ _ _ _
              (env_of (sim_fixed 500)) cfg fixed_priors pp 1 0%nat 3 2 s'
              Hstart (or_intror Hrun)) as [Hpaths Hbound].
  split; [| exact Hbound].
  rewrite Hpaths, Hidx. reflexivity.
Defined.

Lemma prune_extinct_leaves_never_writes_witness :
  prune_extinct_leaves prune_config = true /\
  attempt (env_of (sim_fixed 500)) prune_config fixed_priors pp s0 =
    Raised UnboundLocalError after_one_attempt /\
  files (final_state
           (driver (env_of (sim_fixed 500)) prune_config fixed_priors pp
              5 0%nat 3 2)) = [].
Proof.
  assert (Hprune : prune_extinct_leaves prune_config = true) by reflexivity.
  destruct (@prune_extinct_leaves_never_writes _ _ _ _
              (env_of (sim_fixed 500)) prune_config fixed_priors pp Hprune)
    as (Hraise & _ & Hfiles).
  split; [exact Hprune |]. split.
  - apply (Hraise s0). vm_compute. reflexivity.
  - apply Hfiles.
Defined.

Lemma unknown_label_never_writes_witness :
  label_names unknown_label_config = Some ["log10_birth_rate_0"; "root_state"] /\
  (forall m : SDSDModel Q, ~ In "root_state" (all_label_names m)) /\
  (forall s', attempt (env_of (sim_fixed 500)) unknown_label_config
                fixed_priors pp s0 <> Accepted s') /\
  files (final_state
           (driver (env_of (sim_fixed 500)) unknown_label_config fixed_priors pp
              5 0%nat 3 2)) = [].
Proof.
  assert (Hnames : label_names unknown_label_config =
                   Some ["log10_birth_rate_0"; "root_state"]) by reflexivity.
  assert (Hin : In "root_state" ["log10_birth_rate_0"; "root_state"])
    by (right; left; reflexivity).
  assert (Hunknown : forall m : SDSDModel Q,
            ~ In "root_state" (all_label_names m)).
  { intros m Hm. unfold all_label_names in Hm. simpl in Hm.
    repeat (destruct Hm as [Hm | Hm]; [discriminate |]). exact Hm. }
  destruct (@unknown_label_never_writes _ _ _ _ (env_of (sim_fixed 500)) pp
              unknown_label_config fixed_priors _ _ _ Hnames Hin Hunknown)
    as [Hnever Hfiles].
  split; [exact Hnames |]. split; [exact Hunknown |].
  split; [exact (Hnever s0) | apply Hfiles].
Defined.

Lemma main_config_selects_every_label_witness :
  exists lv,
    get_log10_model_parameters fixed_model = Ok lv /\
    reduce_variables (label_names (main_config (V := Q))) lv = Ok lv /\
    keys lv = all_label_names fixed_model.
Proof.
  assert (Hlv : exists lv, get_log10_model_parameters fixed_model = Ok lv)
    by (vm_compute; eexists; reflexivity).
  destruct Hlv as [lv Hlv]. exists lv. split; [exact Hlv |].
  destruct (main_config_selects_every_label fixed_model Hlv)
    as (Hsel & Hkeys & _).
  split; [exact Hsel | exact Hkeys].
Defined.

Lemma fixed_priors_give_one_model_witness :
  exists s' t',
    attempt (env_of (sim_fixed 500)) cfg fixed_priors pp s0 = Accepted s' /\
    attempt (env_of (sim_fixed 500)) cfg fixed_priors pp (start_state 7)
      = Accepted t' /\
    exists text,
      In ("out/sim.3.labels.csv", text) (files s') /\
      In ("out/sim.7.labels.csv", text) (files t').
Proof.
  assert (Hs : exists s',
            attempt (env_of (sim_fixed 500)) cfg fixed_priors pp s0 = Accepted s')
    by (vm_compute; eexists; reflexivity).
  assert (Ht : exists t',
            attempt (env_of (sim_fixed 500)) cfg fixed_priors pp (start_state 7)
            = Accepted t')
    by (vm_compute; eexists; reflexivity).
  destruct Hs as [s' Hs], Ht as [t' Ht]. exists s', t'.
  split; [exact Hs |]. split; [exact Ht |].
  exact (proj2 (proj2 (@fixed_priors_give_one_model _ _ _ _
                         (env_of (sim_fixed 500)) pp cfg
                         (1 # 100000)%Q (-1)%Q (-1)%Q (1 # 2)%Q (1 # 2)%Q
                         (FixedRV Z 0%Q)))
               s0 (start_state 7) s' t' Hs Ht).
Defined.

Lemma sampled_labels_are_symmetric_witness :
  exists d,
    get_log10_model_parameters (fst (draw_bdb_model fixed_priors 3)) = Ok d /\
    dict_get "log10_birth_rate_1" d = Some (-1)%Q /\
    dict_get "log10_birth_rate_1" d = dict_get "log10_birth_rate_0" d /\
    dict_get "log10_expected_burst_rate_1" d =
      dict_get "log10_expected_burst_rate_0" d.
Proof.
  assert (Hd : exists d,
            get_log10_model_parameters (fst (draw_bdb_model fixed_priors 3))
            = Ok d /\ dict_get "log10_birth_rate_1" d = Some (-1)%Q)
    by (vm_compute; eexists; split; reflexivity).
  destruct Hd as (d & Hd & Hval). exists d.
  destruct (@sampled_labels_are_symmetric _ _ _ fixed_priors 3 d Hd)
    as (Hb & _ & _ & He & _).
  split; [exact Hd |]. split; [exact Hval |]. split; [exact Hb | exact He].
Defined.

Lemma sim_fixed_always_accepts :
  forall s, exists s',
    attempt (env_of (sim_fixed 500)) cfg fixed_priors pp s = Accepted s'.
Proof.
  intros s.
  assert (Hsim : sim_survived (simulate (env_of (sim_fixed 500)) cfg fixed_priors s)
                 = true /\
                 sim_root (simulate (env_of (sim_fixed 500)) cfg fixed_priors s)
                 = stub_tree 500 0 /\
                 sim_model (simulate (env_of (sim_fixed 500)) cfg fixed_priors s)
                 = fixed_model).
  { unfold simulate, draw_bdb_model, fixed_priors, FixedRV.
    cbn [rvs state_rate log_birth_rate log_death_rate_prop burst_rate_prop
         burst_prob env_of rng_random sim_SDSD_tree].
    destruct (lcg_random (rng s)) as [seed g].
    unfold sim_fixed. cbn [sim_survived sim_root sim_model].
    split; [reflexivity |]. split; reflexivity. }
  destruct Hsim as (Hsv & Hroot & Hmodel).
  assert (Hchk : checks cfg true (stub_tree 500 0) = Accept)
    by (vm_compute; reflexivity).
  assert (Htext : exists text, labels_text cfg fixed_model = Ok text)
    by (vm_compute; eexists; reflexivity).
  destruct Htext as [text Htext].
  unfold attempt. rewrite Hsv, Hroot, Hchk.
  cbn [prune_extinct_leaves cfg main_config].
  apply (@write_outputs_of_text _ _ _ _ cfg pp _ _ text).
  now rewrite Hmodel.
Defined.

Lemma accepting_run_finishes_witness :
  exists s',
    driver (env_of (sim_fixed 500)) cfg fixed_priors pp 2 0%nat 3 2
      = Finished s' /\
    sim_idx s' = 5 /\ List.length (files s') = 6%nat /\ stderr s' = [].
Proof.
  assert (Hstart : 0 <= 3) by (vm_compute; discriminate).
  assert (Hbatch : 0 <= 2) by (vm_compute; discriminate).
  exact (@accepting_run_finishes _ _ _ _ (env_of (sim_fixed 500)) pp cfg
           fixed_priors 0%nat 3 2 Hstart sim_fixed_always_accepts Hbatch).
Defined.

Lemma tip_states_are_kept_unless_all_zeros_witness :
  map label (leaf_iter (stub_tree 2 0)) = map label (leaf_iter other_states_tree) /\
  leaf_iter (stub_tree 2 0) <> leaf_iter other_states_tree /\
  stream_tip_states (stub_tree 2 0) false
    <> stream_tip_states other_states_tree false /\
  stream_tip_states (stub_tree 2 0) true
    = stream_tip_states other_states_tree true.
Proof.
  assert (Hlab : map label (leaf_iter (stub_tree 2 0)) =
                 map label (leaf_iter other_states_tree)) by reflexivity.
  assert (Hneq : leaf_iter (stub_tree 2 0) <> leaf_iter other_states_tree)
    by (vm_compute; discriminate).
  destruct (tip_states_are_kept_unless_all_zeros
              (stub_tree 2 0) other_states_tree Hlab) as [Hiff Hzero].
  split; [exact Hlab |]. split; [exact Hneq |]. split; [| exact Hzero].
  intros Heq. apply Hneq. exact (proj1 Hiff Heq).
Defined.

Lemma parse_cli_args_spec_witness :
  Cli.parse_cli_args int_of_str ["sim_bdb.py"; "out"; "sim"; "3"; "2"; "more"]
    = inr ("out", "sim", 3, 2) /\
  Cli.parse_cli_args int_of_str ["sim_bdb.py"; "out"; "sim"; "3"]
    = inl Cli.IndexError.
Proof.
  split.
  - apply (proj1 (parse_cli_args_spec int_of_str
                    ["sim_bdb.py"; "out"; "sim"; "3"; "2"; "more"])).
    exists "sim_bdb.py", "3", "2", ["more"].
    split; [reflexivity |]. split; vm_compute; reflexivity.
  - apply (proj2 (parse_cli_args_spec int_of_str
                    ["sim_bdb.py"; "out"; "sim"; "3"])).
    right. split; [reflexivity |]. vm_compute. discriminate.
Defined.

Lemma xticks_cover_the_data_witness :
  [3; 1; 4; 1; 5] <> [] /\
  exists lo hi calls,
    BurstPlot.plot_int_histo_on_ax [3; 1; 4; 1; 5] "proportion"
      (Some "Number of burst events") (Some "Proportion of trees") None
      "#714A7E" =
      ((calls ++ [BurstPlot.Set_xticks (BurstPlot.range lo (hi + 1));
                  BurstPlot.Set_xticklabels (BurstPlot.range lo (hi + 1))])%list,
       true) /\
    In lo [3; 1; 4; 1; 5] /\ In hi [3; 1; 4; 1; 5] /\
    (forall v, In v [3; 1; 4; 1; 5] -> In v (BurstPlot.range lo (hi + 1))) /\
    (forall v, In v (BurstPlot.range lo (hi + 1)) <-> lo <= v <= hi) /\
    List.length (BurstPlot.range lo (hi + 1)) = Z.to_nat (hi - lo + 1).
Proof.
  assert (Hne : [3; 1; 4; 1; 5] <> []) by discriminate.
  split; [exact Hne |].
  exact (xticks_cover_the_data "proportion" (Some "Number of burst events")
           (Some "Proportion of trees") None "#714A7E" Hne).
Defined.

Lemma filter_files_spec_witness :
  PlotFiles.filter_files
    [ "out.density_aux.pdf"; "out.train_estimate_rate.pdf";
      "density.out.summary.txt"; "out.density_label.pdf" ] "density"
  = [ "out.density_aux.pdf"; "out.density_label.pdf" ] /\
  (In "out.density_aux.pdf"
      (PlotFiles.filter_files
         [ "out.density_aux.pdf"; "out.train_estimate_rate.pdf";
           "density.out.summary.txt"; "out.density_label.pdf" ] "density")).
Proof.
  split; [vm_compute; reflexivity |].
  apply (proj2 (proj1 (proj2 (filter_files_spec _ "density")) _)).
  split; [now left |]. exists "", "_aux.pdf". vm_compute. reflexivity.
Defined.

Lemma report_pages_exclude_the_summary_witness :
  ~ absent "."%char "out.v2" /\
  PlotFiles.is_report_page "out.v2" "out.v2.density.pdf" = false /\
  PlotFiles.is_report_page "out" "out.summary.pdf" = false.
Proof.
  assert (Hdot : ~ absent "."%char "out.v2").
  { simpl. intros (_ & _ & _ & Hneq & _). now apply Hneq. }
  split; [exact Hdot |]. split.
  - exact (proj2 (report_pages_exclude_the_summary "out.v2") Hdot
             "out.v2.density.pdf").
  - exact (proj1 (report_pages_exclude_the_summary "out")).
Defined.

End MoreRuns.
